(** * DBGH_ASSERTS: the assertion macros of [include/DBGHAssert.h]

    A shallow embedding of the two dispatch macros [IMPL_DBGH_ASSERT] and
    [IMPL_DBGH_ASSERT_DEBUG], of the public macros built on them
    ([ASSERT_DEBUG], [ASSERT_WARNING], [ASSERT_ERROR], [ASSERT_FATAL], in
    both settings of the [DEBUG] preprocessor switch), and of the
    collaborators they call.

    The header is the only C++ file at hand.  The classes it includes from
    [impl/] ([CAssertConfig], [CAssertHandler], [CHandlerExecutor],
    [CAssertException]) are not: the macros are therefore modelled over an
    arbitrary [HandleAssert], and a second layer models the missing classes
    from the specification (marked as such) where a property is about
    them. *)

From stdpp Require Import gmap strings list pretty.

Set Default Proof Using "Type".

(** ** Data model *)

(** [dbgh::EAssertLevel]. *)
Inductive EAssertLevel : Type :=
  | Debug
  | Warning
  | Error
  | Fatal.

#[global] Instance EAssertLevel_eq_dec : EqDecision EAssertLevel.
Proof. solve_decision. Defined.

(** The dynamic type of a C++ exception object, as far as the catch clauses
    of the macros can tell classes apart.  [CAssertException]'s declaration
    is not at hand; a class publicly derived from it is matched by
    [catch (const dbgh::CAssertException&)] like the class itself. *)
Inductive ExceptionClass : Type :=
  | CAssertException
  | DerivedAssertException (name : string)
  | SStartDebuggingException
  | ForeignException (name : string).

#[global] Instance ExceptionClass_eq_dec : EqDecision ExceptionClass.
Proof. solve_decision. Defined.

(** An exception object: its dynamic class, the message held by the
    [CAssertException] base (or by the foreign class), and the data members
    a derived class adds. *)
Record Exception : Type := mkException {
  exn_class : ExceptionClass;
  exn_message : string;
  exn_members : list Z
}.

#[global] Instance Exception_eq_dec : EqDecision Exception.
Proof. solve_decision. Defined.

(** How a statement ends: it falls through, an exception leaves it, the
    process is terminated, or it blocks for ever on the interactive input. *)
Inductive Outcome : Type :=
  | Normal
  | Throws (e : Exception)
  | Terminated
  | Blocked.

(** One textual macro invocation: the identity of its [static bool __ignore]
    and what [__FILE__], [__LINE__], [__func__] and [#_expression_] expand
    to there. *)
Record CallSite : Type := mkCallSite {
  site_id : positive;
  site_file : string;
  site_line : N;
  site_func : string;
  site_expr : string
}.

(** The failure context handed to an executor operation. *)
Record FailureContext : Type := mkFailureContext {
  ctx_level : EAssertLevel;
  ctx_file : string;
  ctx_func : string;
  ctx_line : N;
  ctx_expr : string;
  ctx_message : string
}.

(** One attempt to read a command from [std::cin]. *)
Inductive Read : Type :=
  | Token (s : string)
  | ReadFailed.

(** The streams and runtime counters an executor works on. *)
Record IO : Type := mkIO {
  io_stdin : list Read;
  io_cerr : list string;
  io_uncaught : nat
}.

(** Resolution of a failing Debug-level check. *)
Inductive Resolution : Type :=
  | Continue
  | Suppressed
  | Break
  | Escalate
  | Abort.

#[global] Instance Resolution_eq_dec : EqDecision Resolution.
Proof. solve_decision. Defined.

(** [dbgh::CHandlerExecutor]: one operation per level.  The interactive
    operation receives the call site's latch by reference: it takes its
    value and returns the value it leaves there; [None] is an operation that
    never returns. *)
Record CHandlerExecutor : Type := mkExecutor {
  HandleWarning : FailureContext -> IO -> Outcome * IO;
  HandleError : FailureContext -> IO -> Outcome * IO;
  HandleFatal : FailureContext -> IO -> Outcome * IO;
  HandleInteractive : FailureContext -> bool -> IO -> option Resolution * bool * IO
}.

(** [dbgh::CAssertConfig]: the enablement of each level and the one
    installed executor. *)
Record CAssertConfig : Type := mkConfig {
  cfg_enabled : EAssertLevel -> bool;
  cfg_executor : CHandlerExecutor
}.

(** The variables of the program the checks are written in: guarded
    expressions and format arguments read and may write them. *)
Definition Env : Type := gmap string Z.

(** A guarded expression [_expression_] and the format call
    [std::format(__VA_ARGS__)]: both are evaluated in the caller's scope. *)
Definition Expression : Type := Env -> bool * Env.
Definition FormatCall : Type := Env -> string * Env.

(** What an invocation of a check does, in order. *)
Inductive Event : Type :=
  | EvIsActiveAssert (level : EAssertLevel)
  | EvExpression (site : positive)
  | EvFormat (site : positive)
  | EvHandleAssert (level : EAssertLevel) (site : positive) (message : string)
  | EvExecutor (ctx : FailureContext)
  | EvStartDebugging (site : positive).

(** The state of the process: the configuration singleton, the
    [static bool __ignore] of every call site (a site that is not in the map
    still has its initial value [false]), the streams, the program's
    variables, and the events so far. *)
Record World : Type := mkWorld {
  w_config : CAssertConfig;
  w_ignore : gmap positive bool;
  w_io : IO;
  w_env : Env;
  w_trace : list Event
}.

Definition set_config (c : CAssertConfig) (w : World) : World :=
  mkWorld c (w_ignore w) (w_io w) (w_env w) (w_trace w).
Definition set_ignore (m : gmap positive bool) (w : World) : World :=
  mkWorld (w_config w) m (w_io w) (w_env w) (w_trace w).
Definition set_io (io : IO) (w : World) : World :=
  mkWorld (w_config w) (w_ignore w) io (w_env w) (w_trace w).
Definition set_env (env : Env) (w : World) : World :=
  mkWorld (w_config w) (w_ignore w) (w_io w) env (w_trace w).
Definition record (ev : Event) (w : World) : World :=
  mkWorld (w_config w) (w_ignore w) (w_io w) (w_env w) (w_trace w ++ [ev]).

(** The value of [__ignore] at a call site. *)
Definition ignore_of (w : World) (site : positive) : bool :=
  default false (w_ignore w !! site).

(** ** The macros of [DBGHAssert.h] *)

(** [CAssertConfig::IsActiveAssert], a read of the enablement map. *)
Definition IsActiveAssert (c : CAssertConfig) (level : EAssertLevel) : bool :=
  cfg_enabled c level.

(** [bool(_expression_)] evaluated at the call site. *)
Definition eval_expression (cs : CallSite) (e : Expression) (w : World) : bool * World :=
  let '(b, env) := e (w_env w) in
  (b, record (EvExpression (site_id cs)) (set_env env w)).

(** [std::format(__VA_ARGS__)] evaluated at the call site. *)
Definition eval_format (cs : CallSite) (f : FormatCall) (w : World) : string * World :=
  let '(msg, env) := f (w_env w) in
  (msg, record (EvFormat (site_id cs)) (set_env env w)).

(** [catch (const dbgh::CAssertException& e)]: matches the class and the
    classes derived from it. *)
Definition catches_CAssertException (e : Exception) : bool :=
  match exn_class e with
  | CAssertException | DerivedAssertException _ => true
  | SStartDebuggingException | ForeignException _ => false
  end.

(** [catch (const dbgh::impl::CAssertHandler::SStartDebuggingException)]. *)
Definition catches_SStartDebuggingException (e : Exception) : bool :=
  match exn_class e with
  | SStartDebuggingException => true
  | _ => false
  end.

(** [throw e;] with [e] of static type [const dbgh::CAssertException&]: the
    exception object thrown is copy-initialised from the [CAssertException]
    subobject of [e], so its class is [CAssertException] itself. *)
Definition throw_e (e : Exception) : Exception :=
  mkException CAssertException (exn_message e) [].

Section Macros.

(** [dbgh::impl::CAssertHandler::HandleAssert<_level_>]: its message,
    the call site's [#_expression_], [__FILE__], [__LINE__], [__func__]
    and, in the Debug macro, a reference to the site's [__ignore]. *)
Variable HandleAssert :
  EAssertLevel -> string -> CallSite -> option positive -> World -> Outcome * World.

(** [IMPL_DBGH_ASSERT(_level_, _expression_, ...)], lines 46-57. *)
Definition IMPL_DBGH_ASSERT (level : EAssertLevel) (cs : CallSite)
    (e : Expression) (f : FormatCall) (w : World) : Outcome * World :=
  let w := record (EvIsActiveAssert level) w in
  if IsActiveAssert (w_config w) level then
    let '(b, w) := eval_expression cs e w in
    if negb b then
      let '(msg, w) := eval_format cs f w in
      let w := record (EvHandleAssert level (site_id cs) msg) w in
      match HandleAssert level msg cs None w with
      | (Throws ex, w') =>
          if catches_CAssertException ex then (Throws (throw_e ex), w')
          else (Throws ex, w')
      | r => r
      end
    else (Normal, w)
  else (Normal, w).

(** [IMPL_DBGH_ASSERT_DEBUG(_level_, _expression_, ...)], lines 68-85. *)
Definition IMPL_DBGH_ASSERT_DEBUG (level : EAssertLevel) (cs : CallSite)
    (e : Expression) (f : FormatCall) (w : World) : Outcome * World :=
  if negb (ignore_of w (site_id cs)) then
    let w := record (EvIsActiveAssert level) w in
    if IsActiveAssert (w_config w) level then
      let '(b, w) := eval_expression cs e w in
      if negb b then
        let '(msg, w) := eval_format cs f w in
        let w := record (EvHandleAssert level (site_id cs) msg) w in
        match HandleAssert level msg cs (Some (site_id cs)) w with
        | (Throws ex, w') =>
            if catches_SStartDebuggingException ex
            then (Normal, record (EvStartDebugging (site_id cs)) w')
            else if catches_CAssertException ex then (Throws (throw_e ex), w')
            else (Throws ex, w')
        | r => r
        end
      else (Normal, w)
    else (Normal, w)
  else (Normal, w).

(** [ASSERT_DEBUG], line 140. *)
Definition ASSERT_DEBUG : CallSite -> Expression -> FormatCall -> World -> Outcome * World :=
  IMPL_DBGH_ASSERT_DEBUG Debug.

(** [ASSERT_WARNING], [ASSERT_ERROR] and [ASSERT_FATAL]: lines 187, 234
    and 282 when [DEBUG] is not defined, lines 291-293 when it is. *)
Definition ASSERT_WARNING (DEBUG : bool) :
    CallSite -> Expression -> FormatCall -> World -> Outcome * World :=
  if DEBUG then IMPL_DBGH_ASSERT_DEBUG Debug else IMPL_DBGH_ASSERT Warning.

Definition ASSERT_ERROR (DEBUG : bool) :
    CallSite -> Expression -> FormatCall -> World -> Outcome * World :=
  if DEBUG then IMPL_DBGH_ASSERT_DEBUG Debug else IMPL_DBGH_ASSERT Error.

Definition ASSERT_FATAL (DEBUG : bool) :
    CallSite -> Expression -> FormatCall -> World -> Outcome * World :=
  if DEBUG then IMPL_DBGH_ASSERT_DEBUG Debug else IMPL_DBGH_ASSERT Fatal.

End Macros.

(** ** The classes of [impl/], from the specification *)

Module CAssertConfigModel.

(** Modelled from the spec: [CAssertConfig::EnableAsserts] (the header
    names it in the documentation of [ASSERT_FATAL]; its body is in
    [impl/CAssertConfig.cpp], which is missing).  The level is enabled,
    the others keep their setting. *)
Definition EnableAsserts (level : EAssertLevel) (c : CAssertConfig) : CAssertConfig :=
  mkConfig (fun l => if decide (l = level) then true else cfg_enabled c l)
           (cfg_executor c).

(** Modelled from the spec: the registry's [Disable(level)]
    ([impl/CAssertConfig.cpp] is missing). *)
Definition DisableAsserts (level : EAssertLevel) (c : CAssertConfig) : CAssertConfig :=
  mkConfig (fun l => if decide (l = level) then false else cfg_enabled c l)
           (cfg_executor c).

(** Modelled from the spec: [CAssertConfig::SetExecutor] replaces the one
    owned executor ([impl/CAssertConfig.cpp] is missing). *)
Definition SetExecutor (ex : CHandlerExecutor) (c : CAssertConfig) : CAssertConfig :=
  mkConfig (cfg_enabled c) ex.

(** Modelled from the spec: the default enablement, Warning and Error
    enabled, Fatal disabled, Debug following the compile-time switch
    ([impl/CAssertConfig.cpp] is missing). *)
Definition default_enabled (DEBUG : bool) (level : EAssertLevel) : bool :=
  match level with
  | Debug => DEBUG
  | Warning => true
  | Error => true
  | Fatal => false
  end.

End CAssertConfigModel.

Module CHandlerExecutorModel.

Definition dquote : string := String (Ascii.ascii_of_nat 34) EmptyString.

Definition level_name (level : EAssertLevel) : string :=
  match level with
  | Debug => "DEBUG"
  | Warning => "WARNING"
  | Error => "ERROR"
  | Fatal => "FATAL"
  end.

(** Modelled from the spec: the default report line
    ([impl/CHandlerExecutor.cpp] is missing),
    [[<LEVEL>] Uncaught: <N>, File: <file>, Function: <fn>, Line: <line>,
    Expression: "<expr>", Message: <message>]. *)
Definition report_line (uncaught : nat) (ctx : FailureContext) : string :=
  "[" +:+ level_name (ctx_level ctx) +:+ "] Uncaught: " +:+ pretty uncaught
    +:+ ", File: " +:+ ctx_file ctx
    +:+ ", Function: " +:+ ctx_func ctx
    +:+ ", Line: " +:+ pretty (ctx_line ctx)
    +:+ ", Expression: " +:+ dquote +:+ ctx_expr ctx +:+ dquote
    +:+ ", Message: " +:+ ctx_message ctx.

(** The report written to the diagnostic stream. *)
Definition report (ctx : FailureContext) (io : IO) : IO :=
  mkIO (io_stdin io) (io_cerr io ++ [report_line (io_uncaught io) ctx]) (io_uncaught io).

(** Modelled from the spec: the command alphabet of the interactive
    protocol, [I], [F], [D], [T], [B] in either case, each a token of one
    character ([impl/CAssertHandler.cpp] is missing). *)
Definition parse_command (s : string) : option Resolution :=
  if (String.eqb s "I" || String.eqb s "i")%bool then Some Continue
  else if (String.eqb s "F" || String.eqb s "f")%bool then Some Suppressed
  else if (String.eqb s "D" || String.eqb s "d")%bool then Some Break
  else if (String.eqb s "T" || String.eqb s "t")%bool then Some Escalate
  else if (String.eqb s "B" || String.eqb s "b")%bool then Some Abort
  else None.

Definition read_command (r : Read) : option Resolution :=
  match r with
  | Token s => parse_command s
  | ReadFailed => None
  end.

Definition menu : string :=
  "(I) ignore once, (F) ignore forever, (D) break into the debugger, (T) throw, (B) terminate".

(** Modelled from the spec: the state [Prompting] of the interactive
    protocol, steps 2 to 4 ([impl/CAssertHandler.cpp] is missing).  Each
    round emits the menu and reads one command; a command outside the
    alphabet and a failed read start the next round.  When the input has
    no further command the protocol stays in [Prompting]: the result is
    [None]. *)
Fixpoint prompting (input : list Read) (cerr : list string)
    : option Resolution * list Read * list string :=
  match input with
  | [] => (None, [], cerr ++ [menu])
  | r :: rest =>
      match read_command r with
      | Some res => (Some res, rest, cerr ++ [menu])
      | None => prompting rest (cerr ++ [menu])
      end
  end.

(** Modelled from the spec: [HandleInteractive(ctx, ignoreLatchRef)]
    ([impl/CHandlerExecutor.cpp] and [impl/CAssertHandler.cpp] are
    missing): report, run the protocol, set the latch on [Suppressed]. *)
Definition default_HandleInteractive (ctx : FailureContext) (latch : bool) (io : IO)
    : option Resolution * bool * IO :=
  let io := report ctx io in
  let '(r, input, cerr) := prompting (io_stdin io) (io_cerr io) in
  (r,
   match r with Some Suppressed => true | _ => latch end,
   mkIO input cerr (io_uncaught io)).

(** Modelled from the spec: [HandleWarning] reports and returns
    ([impl/CHandlerExecutor.cpp] is missing). *)
Definition default_HandleWarning (ctx : FailureContext) (io : IO) : Outcome * IO :=
  (Normal, report ctx io).

(** Modelled from the spec: [HandleError] reports and fails with the
    assertion exception carrying the formatted message
    ([impl/CHandlerExecutor.cpp] is missing). *)
Definition default_HandleError (ctx : FailureContext) (io : IO) : Outcome * IO :=
  (Throws (mkException CAssertException (ctx_message ctx) []), report ctx io).

(** Modelled from the spec: [HandleFatal] reports and terminates the
    process ([impl/CHandlerExecutor.cpp] is missing). *)
Definition default_HandleFatal (ctx : FailureContext) (io : IO) : Outcome * IO :=
  (Terminated, report ctx io).

(** [sub] occurs in [s]. *)
Definition occurs_in (sub s : string) : Prop :=
  exists front back, s = front +:+ sub +:+ back.

(** The pairs of the command alphabet. *)
Definition commands : list (string * Resolution) :=
  [("I", Continue); ("i", Continue);
   ("F", Suppressed); ("f", Suppressed);
   ("D", Break); ("d", Break);
   ("T", Escalate); ("t", Escalate);
   ("B", Abort); ("b", Abort)].

(** The resolution the protocol reaches on an input: that of the first
    command of the alphabet, if there is one. *)
Fixpoint resolve (input : list Read) : option Resolution :=
  match input with
  | [] => None
  | r :: rest =>
      match read_command r with
      | Some res => Some res
      | None => resolve rest
      end
  end.

(** A check prompted: between two worlds the diagnostic stream gained a
    report line followed by the menu. *)
Definition prompted (w w' : World) : Prop :=
  exists ctx more,
    io_cerr (w_io w') =
      io_cerr (w_io w) ++ report_line (io_uncaught (w_io w)) ctx :: menu :: more.

Definition default_executor : CHandlerExecutor :=
  mkExecutor default_HandleWarning default_HandleError default_HandleFatal
             default_HandleInteractive.

End CHandlerExecutorModel.

Module CAssertHandlerModel.

(** An assignment through the [bool&] parameter. *)
Definition write_ignore (site : positive) (old new : bool) (w : World) : World :=
  if decide (new = old) then w
  else set_ignore (<[site := new]> (w_ignore w)) w.

(** Modelled from the spec: how a resolution leaves [HandleAssert]
    ([impl/CAssertHandler.h] and [.cpp] are missing).  The macro has no
    return value to inspect, only its two catch clauses: Break reaches it
    as [SStartDebuggingException], Escalate as the assertion exception
    with the formatted message; Abort terminates; Continue and Suppressed
    return.  [None] is a protocol that never leaves [Prompting]. *)
Definition surface (r : option Resolution) (msg : string) : Outcome :=
  match r with
  | None => Blocked
  | Some Continue => Normal
  | Some Suppressed => Normal
  | Some Break => Throws (mkException SStartDebuggingException "" [])
  | Some Escalate => Throws (mkException CAssertException msg [])
  | Some Abort => Terminated
  end.

(** The failure context of a check: the level, what the call site supplies
    and the formatted message. *)
Definition failure_context (level : EAssertLevel) (cs : CallSite) (msg : string)
    : FailureContext :=
  mkFailureContext level (site_file cs) (site_func cs) (site_line cs) (site_expr cs) msg.

(** Modelled from the spec: [CAssertHandler::HandleAssert<_level_>]
    ([impl/CAssertHandler.h] and [.cpp] are missing): build the failure
    context and invoke the operation of the installed executor that
    matches the level; what the operation throws leaves [HandleAssert] as
    it is. *)
Definition HandleAssert (level : EAssertLevel) (msg : string) (cs : CallSite)
    (ignore_ref : option positive) (w : World) : Outcome * World :=
  let ctx := failure_context level cs msg in
  let w := record (EvExecutor ctx) w in
  let ex := cfg_executor (w_config w) in
  match level with
  | Warning => let '(o, io) := HandleWarning ex ctx (w_io w) in (o, set_io io w)
  | Error => let '(o, io) := HandleError ex ctx (w_io w) in (o, set_io io w)
  | Fatal => let '(o, io) := HandleFatal ex ctx (w_io w) in (o, set_io io w)
  | Debug =>
      let old := match ignore_ref with Some s => ignore_of w s | None => false end in
      let '(r, new, io) := HandleInteractive ex ctx old (w_io w) in
      let w := set_io io w in
      let w := match ignore_ref with Some s => write_ignore s old new w | None => w end in
      (surface r msg, w)
  end.

(** The process at start: the default configuration, every latch
    [false], nothing done yet. *)
Definition initial_world (DEBUG : bool) (io : IO) (env : Env) : World :=
  mkWorld (mkConfig (CAssertConfigModel.default_enabled DEBUG)
                    CHandlerExecutorModel.default_executor)
          ∅ io env [].

End CAssertHandlerModel.

(** The world in which [HandleAssert] is entered by a failing check. *)
Definition at_handler (level : EAssertLevel) (cs : CallSite)
    (e : Expression) (f : FormatCall) (w : World) : World :=
  let w1 := snd (eval_expression cs e (record (EvIsActiveAssert level) w)) in
  let '(msg, w2) := eval_format cs f w1 in
  record (EvHandleAssert level (site_id cs) msg) w2.

(** The message a failing check formats. *)
Definition message_of (e : Expression) (f : FormatCall) (w : World) : string :=
  fst (f (snd (e (w_env w)))).

(** ** Concrete call sites, worlds and executors used in the examples *)

Module Examples.
Import CAssertConfigModel CHandlerExecutorModel CAssertHandlerModel.

Definition site_A : CallSite := mkCallSite 1 "main.cpp" 42 "main" "2 < 1".
Definition site_B : CallSite := mkCallSite 2 "main.cpp" 42 "main" "2 < 1".

(** [2 < 1]: always false, no side effect. *)
Definition failing : Expression := fun env => (false, env).

(** [++calls < 0]: false, and counts its evaluations in [calls]. *)
Definition counting : Expression :=
  fun env => (false, <["calls" := (default 0 (env !! "calls") + 1)%Z]> env).

(** [calls >= 0] on a fresh program: true. *)
Definition passing : Expression :=
  fun env => (bool_decide (0 <= default 0 (env !! "calls"))%Z, env).

(** [std::format("bad value {}", 5)]. *)
Definition bad_value_5 : FormatCall := fun env => ("bad value 5", env).

Definition io_with (input : list Read) : IO := mkIO input [] 0.

(** A debug build at start, with the given interactive input. *)
Definition debug_world (input : list Read) : World :=
  initial_world true (io_with input) ∅.

(** A release build at start. *)
Definition release_world : World := initial_world false (io_with []) ∅.

(** An executor whose [HandleError] throws an exception of a class
    derived from [CAssertException], with a data member of its own. *)
Definition deriving_executor : CHandlerExecutor :=
  mkExecutor default_HandleWarning
             (fun ctx io => (Throws (mkException (DerivedAssertException "CDiskError")
                                                 (ctx_message ctx) [28%Z]), io))
             default_HandleFatal
             default_HandleInteractive.

End Examples.

(** ** The try blocks of the two macros, on their own *)

(** The [try] block of [IMPL_DBGH_ASSERT], lines 49-55, seen from the way
    the call of [HandleAssert] inside it ended. *)
Definition try_block (r : Outcome * World) : Outcome * World :=
  match r with
  | (Throws ex, w') =>
      if catches_CAssertException ex then (Throws (throw_e ex), w')
      else (Throws ex, w')
  | r => r
  end.

(** The [try] block of [IMPL_DBGH_ASSERT_DEBUG], lines 73-81. *)
Definition try_block_DEBUG (cs : CallSite) (r : Outcome * World) : Outcome * World :=
  match r with
  | (Throws ex, w') =>
      if catches_SStartDebuggingException ex
      then (Normal, record (EvStartDebugging (site_id cs)) w')
      else if catches_CAssertException ex then (Throws (throw_e ex), w')
      else (Throws ex, w')
  | r => r
  end.

(** ** The macros over operands that are arbitrary C++ *)

(** How the evaluation of an operand of a check ends: with a value, with an
    exception, with the process terminated, or never. *)
Inductive Evaluated (A : Type) : Type :=
  | Yields (a : A)
  | Raises (ex : Exception)
  | Exits
  | Hangs.

Arguments Yields {A} a.
Arguments Raises {A} ex.
Arguments Exits {A}.
Arguments Hangs {A}.

(** An operand written at the call site: [_expression_] or
    [std::format(__VA_ARGS__)] with its arguments.  It runs in the caller's
    scope and may do there whatever C++ can: change the program's
    variables, the configuration, the streams, the latches, and end in any
    of the four ways. *)
Definition Operand (A : Type) : Type := World -> Evaluated A * World.

(** The way a statement ends when an operand did not yield a value. *)
Definition abrupt {A : Type} (r : Evaluated A) : Outcome :=
  match r with
  | Yields _ => Normal
  | Raises ex => Throws ex
  | Exits => Terminated
  | Hangs => Blocked
  end.

(** An expression over the program's variables alone, as an operand. *)
Definition pure_expression (e : Expression) : Operand bool :=
  fun w => let '(b, env) := e (w_env w) in (Yields b, set_env env w).

(** A format call over the program's variables alone, as an operand. *)
Definition pure_format (f : FormatCall) : Operand string :=
  fun w => let '(msg, env) := f (w_env w) in (Yields msg, set_env env w).

Module Effectful.
Section Macros.

Variable HandleAssert :
  EAssertLevel -> string -> CallSite -> option positive -> World -> Outcome * World.

(** [bool(_expression_)] in the condition of the [if], lines 47 and 71:
    outside the [try] block. *)
Definition condition (cs : CallSite) (e : Operand bool) (w : World)
    : Evaluated bool * World :=
  let '(rb, w) := e w in (rb, record (EvExpression (site_id cs)) w).

(** The statement inside the [try] block, lines 50-52 and 74-76: the format
    call is evaluated, then [HandleAssert] is called with its message. *)
Definition try_body (level : EAssertLevel) (cs : CallSite) (f : Operand string)
    (ignore_ref : option positive) (w : World) : Outcome * World :=
  let '(rm, w) := f w in
  let w := record (EvFormat (site_id cs)) w in
  match rm with
  | Yields msg =>
      HandleAssert level msg cs ignore_ref
        (record (EvHandleAssert level (site_id cs) msg) w)
  | _ => (abrupt rm, w)
  end.

(** [IMPL_DBGH_ASSERT(_level_, _expression_, ...)], lines 46-57. *)
Definition IMPL_DBGH_ASSERT (level : EAssertLevel) (cs : CallSite)
    (e : Operand bool) (f : Operand string) (w : World) : Outcome * World :=
  let w := record (EvIsActiveAssert level) w in
  if IsActiveAssert (w_config w) level then
    let '(rb, w) := condition cs e w in
    match rb with
    | Yields b =>
        if negb b then try_block (try_body level cs f None w)
        else (Normal, w)
    | _ => (abrupt rb, w)
    end
  else (Normal, w).

(** [IMPL_DBGH_ASSERT_DEBUG(_level_, _expression_, ...)], lines 68-85. *)
Definition IMPL_DBGH_ASSERT_DEBUG (level : EAssertLevel) (cs : CallSite)
    (e : Operand bool) (f : Operand string) (w : World) : Outcome * World :=
  if negb (ignore_of w (site_id cs)) then
    let w := record (EvIsActiveAssert level) w in
    if IsActiveAssert (w_config w) level then
      let '(rb, w) := condition cs e w in
      match rb with
      | Yields b =>
          if negb b
          then try_block_DEBUG cs (try_body level cs f (Some (site_id cs)) w)
          else (Normal, w)
      | _ => (abrupt rb, w)
      end
    else (Normal, w)
  else (Normal, w).

End Macros.
End Effectful.

Module ExampleHandlers.

(** A [HandleAssert] that ends the same way at every call and touches
    nothing. *)
Definition ending (o : Outcome)
    : EAssertLevel -> string -> CallSite -> option positive -> World -> Outcome * World :=
  fun _ _ _ _ w => (o, w).

Definition bad_alloc : Exception := mkException (ForeignException "std::bad_alloc") "" [].
Definition start_debugging : Exception := mkException SStartDebuggingException "" [].
Definition disk_error : Exception :=
  mkException (DerivedAssertException "CDiskError") "disk full" [28%Z].

(** [std::format("calls = {}", calls)] for the values of [calls] that the
    examples reach. *)
Definition calls_message : FormatCall :=
  fun env =>
    (match env !! "calls" with
     | None => "calls = 0"
     | Some 1%Z => "calls = 1"
     | Some _ => "calls = many"
     end, env).

(** A [HandleAssert] that throws its message back in a foreign exception. *)
Definition echo
    : EAssertLevel -> string -> CallSite -> option positive -> World -> Outcome * World :=
  fun _ msg _ _ w => (Throws (mkException (ForeignException "echo") msg []), w).

(** An operand that throws. *)
Definition raising {A : Type} (ex : Exception) : Operand A :=
  fun w => (Raises ex, w).

End ExampleHandlers.

(** ** Properties of the macros, for every [HandleAssert] *)

Section MacroFacts.

Variable H : EAssertLevel -> string -> CallSite -> option positive -> World -> Outcome * World.

Lemma record_config ev w : w_config (record ev w) = w_config w.
Proof. reflexivity. Qed.

Lemma record_ignore ev w s : ignore_of (record ev w) s = ignore_of w s.
Proof. reflexivity. Qed.

Lemma IMPL_DBGH_ASSERT_failing level cs e f w :
  IsActiveAssert (w_config w) level = true ->
  fst (e (w_env w)) = false ->
  IMPL_DBGH_ASSERT H level cs e f w =
    match H level (message_of e f w) cs None (at_handler level cs e f w) with
    | (Throws ex, w') =>
        if catches_CAssertException ex then (Throws (throw_e ex), w')
        else (Throws ex, w')
    | r => r
    end.
Proof.
  intros Hact Hexp.
  unfold IMPL_DBGH_ASSERT, at_handler, message_of, eval_expression, eval_format.
  rewrite record_config, Hact. cbn.
  destruct (e (w_env w)) as [b env1] eqn:He. cbn in Hexp. subst b. cbn.
  destruct (f env1) as [msg env2] eqn:Hf. cbn. reflexivity.
Qed.

Lemma IMPL_DBGH_ASSERT_DEBUG_failing level cs e f w :
  ignore_of w (site_id cs) = false ->
  IsActiveAssert (w_config w) level = true ->
  fst (e (w_env w)) = false ->
  IMPL_DBGH_ASSERT_DEBUG H level cs e f w =
    match H level (message_of e f w) cs (Some (site_id cs)) (at_handler level cs e f w) with
    | (Throws ex, w') =>
        if catches_SStartDebuggingException ex
        then (Normal, record (EvStartDebugging (site_id cs)) w')
        else if catches_CAssertException ex then (Throws (throw_e ex), w')
        else (Throws ex, w')
    | r => r
    end.
Proof.
  intros Hign Hact Hexp.
  unfold IMPL_DBGH_ASSERT_DEBUG, at_handler, message_of, eval_expression, eval_format.
  rewrite Hign, record_config, Hact. cbn.
  destruct (e (w_env w)) as [b env1] eqn:He. cbn in Hexp. subst b. cbn.
  destruct (f env1) as [msg env2] eqn:Hf. cbn. reflexivity.
Qed.

Lemma IMPL_DBGH_ASSERT_DEBUG_latched level cs e f w :
  ignore_of w (site_id cs) = true ->
  IMPL_DBGH_ASSERT_DEBUG H level cs e f w = (Normal, w).
Proof.
  intros Hlatched. unfold IMPL_DBGH_ASSERT_DEBUG. rewrite Hlatched. reflexivity.
Qed.

Lemma IMPL_DBGH_ASSERT_DEBUG_inactive level cs e f w :
  ignore_of w (site_id cs) = false ->
  IsActiveAssert (w_config w) level = false ->
  IMPL_DBGH_ASSERT_DEBUG H level cs e f w = (Normal, record (EvIsActiveAssert level) w).
Proof.
  intros Hign Hoff. unfold IMPL_DBGH_ASSERT_DEBUG.
  rewrite Hign, record_config, Hoff. reflexivity.
Qed.

Lemma IMPL_DBGH_ASSERT_DEBUG_passing level cs e f w :
  ignore_of w (site_id cs) = false ->
  IsActiveAssert (w_config w) level = true ->
  fst (e (w_env w)) = true ->
  IMPL_DBGH_ASSERT_DEBUG H level cs e f w =
    (Normal, record (EvExpression (site_id cs))
               (set_env (snd (e (w_env w))) (record (EvIsActiveAssert level) w))).
Proof.
  intros Hign Hact Hexp. unfold IMPL_DBGH_ASSERT_DEBUG, eval_expression.
  rewrite Hign, record_config, Hact. cbn.
  destruct (e (w_env w)) as [b env1]. cbn in *. subst b. reflexivity.
Qed.

Lemma IMPL_DBGH_ASSERT_inactive level cs e f w :
  IsActiveAssert (w_config w) level = false ->
  IMPL_DBGH_ASSERT H level cs e f w = (Normal, record (EvIsActiveAssert level) w).
Proof.
  intros Hoff. unfold IMPL_DBGH_ASSERT. rewrite record_config, Hoff. reflexivity.
Qed.

Lemma IMPL_DBGH_ASSERT_passing level cs e f w :
  IsActiveAssert (w_config w) level = true ->
  fst (e (w_env w)) = true ->
  IMPL_DBGH_ASSERT H level cs e f w =
    (Normal, record (EvExpression (site_id cs))
               (set_env (snd (e (w_env w))) (record (EvIsActiveAssert level) w))).
Proof.
  intros Hact Hexp. unfold IMPL_DBGH_ASSERT, eval_expression.
  rewrite record_config, Hact. cbn.
  destruct (e (w_env w)) as [b env1]. cbn in *. subst b. reflexivity.
Qed.

Lemma record_neq ev w : record ev w <> w.
Proof.
  intros Heq. apply (f_equal w_trace) in Heq. cbn in Heq.
  apply (f_equal length) in Heq. rewrite length_app in Heq. cbn in Heq. lia.
Qed.

(** What the call site of [IMPL_DBGH_ASSERT] lets through: an exception
    that the clause [catch (const CAssertException&)] does not match leaves
    the check as the object that was thrown; one it matches leaves as the
    copy made by [throw e]. *)
Lemma IMPL_DBGH_ASSERT_throws level cs e f w ex w' :
  IsActiveAssert (w_config w) level = true ->
  fst (e (w_env w)) = false ->
  H level (message_of e f w) cs None (at_handler level cs e f w) = (Throws ex, w') ->
  IMPL_DBGH_ASSERT H level cs e f w =
    (Throws (if catches_CAssertException ex then throw_e ex else ex), w').
Proof.
  intros Hact Hexp Hthrow.
  rewrite IMPL_DBGH_ASSERT_failing, Hthrow by assumption.
  destruct (catches_CAssertException ex); reflexivity.
Qed.

(** The copy is the object thrown when its class is [CAssertException]
    itself. *)
Lemma throw_e_exact ex :
  exn_class ex = CAssertException -> exn_members ex = [] -> throw_e ex = ex.
Proof. destruct ex as [c m l]. cbn. intros -> ->. reflexivity. Qed.

(** The call site of the Debug macro executes [START_DEBUGGING] exactly
    when an [SStartDebuggingException] leaves [HandleAssert]. *)
Lemma debug_breakpoint_iff cs e f w :
  ignore_of w (site_id cs) = false ->
  IsActiveAssert (w_config w) Debug = true ->
  fst (e (w_env w)) = false ->
  let r := H Debug (message_of e f w) cs (Some (site_id cs)) (at_handler Debug cs e f w) in
  ASSERT_DEBUG H cs e f w = (Normal, record (EvStartDebugging (site_id cs)) (snd r))
  <-> exists ex, fst r = Throws ex /\ exn_class ex = SStartDebuggingException.
Proof.
  intros Hign Hact Hexp r. unfold ASSERT_DEBUG.
  rewrite IMPL_DBGH_ASSERT_DEBUG_failing by assumption. fold r.
  destruct r as [o w3]. cbn [fst snd]. split.
  - destruct o as [|ex| |]; intros Heq.
    + inversion Heq as [Hw]. symmetry in Hw. destruct (record_neq _ _ Hw).
    + exists ex. split; [reflexivity|].
      unfold catches_SStartDebuggingException in Heq.
      destruct (exn_class ex); try reflexivity;
        destruct (catches_CAssertException ex); discriminate.
    + discriminate.
    + discriminate.
  - intros (ex & -> & Hcls). unfold catches_SStartDebuggingException.
    rewrite Hcls. reflexivity.
Qed.

(** C1. A check at a level the registry reports inactive does nothing:
    whatever the handler, the guarded expression and the format call are,
    both dispatch macros fall through, and the world they leave is the one
    they found, up to the record of the gate query itself (which the Debug
    macro does not even make at a latched site).  So the expression is not
    evaluated, nothing is formatted, [HandleAssert] is not entered, and the
    configuration, the latches, the streams and the program's variables
    are untouched. *)
Theorem C1_inactive_level_no_action (level : EAssertLevel) (cs : CallSite)
    (e : Expression) (f : FormatCall) (w : World) :
  IsActiveAssert (w_config w) level = false ->
  IMPL_DBGH_ASSERT H level cs e f w = (Normal, record (EvIsActiveAssert level) w)
  /\ IMPL_DBGH_ASSERT_DEBUG H level cs e f w =
       (Normal, if ignore_of w (site_id cs) then w else record (EvIsActiveAssert level) w).
Proof.
  intros Hoff. split.
  - unfold IMPL_DBGH_ASSERT. rewrite record_config, Hoff. reflexivity.
  - unfold IMPL_DBGH_ASSERT_DEBUG.
    destruct (ignore_of w (site_id cs)); cbn [negb]; [reflexivity|].
    rewrite record_config, Hoff. reflexivity.
Qed.

(** C9. At a Debug call site whose latch is already true the check is the
    empty statement: the world is returned as it was found, with no gate
    query and no evaluation of the guarded expression on record, and with
    the program's variables as they were. *)
Theorem C9_latched_site_skips_gate_and_expression (level : EAssertLevel) (cs : CallSite)
    (e : Expression) (f : FormatCall) (w : World) :
  ignore_of w (site_id cs) = true ->
  IMPL_DBGH_ASSERT_DEBUG H level cs e f w = (Normal, w).
Proof.
  intros Hlatched. unfold IMPL_DBGH_ASSERT_DEBUG. rewrite Hlatched. reflexivity.
Qed.

(** C10. A check whose gate is active and whose guarded expression is true
    formats nothing and enters no handler: both macros fall through in the
    world reached by the gate query and the evaluation of the expression
    alone.  The format call is not applied to the program's variables, and
    the configuration, the latches and the streams are as before. *)
Theorem C10_passing_check_formats_nothing (level : EAssertLevel) (cs : CallSite)
    (e : Expression) (f : FormatCall) (w : World) :
  IsActiveAssert (w_config w) level = true ->
  fst (e (w_env w)) = true ->
  let w' := record (EvExpression (site_id cs))
              (set_env (snd (e (w_env w))) (record (EvIsActiveAssert level) w)) in
  (IMPL_DBGH_ASSERT H level cs e f w = (Normal, w')
   /\ IMPL_DBGH_ASSERT_DEBUG H level cs e f w =
        (Normal, if ignore_of w (site_id cs) then w else w'))
  /\ w_config w' = w_config w /\ w_ignore w' = w_ignore w /\ w_io w' = w_io w
  /\ w_env w' = snd (e (w_env w))
  /\ w_trace w' = w_trace w ++ [EvIsActiveAssert level; EvExpression (site_id cs)].
Proof.
  intros Hact Hexp w'. split; [split|].
  - unfold IMPL_DBGH_ASSERT, eval_expression. rewrite record_config, Hact. cbn.
    subst w'. destruct (e (w_env w)) as [b env1]. cbn in *. subst b. reflexivity.
  - unfold IMPL_DBGH_ASSERT_DEBUG, eval_expression.
    destruct (ignore_of w (site_id cs)); cbn [negb]; [reflexivity|].
    rewrite record_config, Hact. cbn.
    subst w'. destruct (e (w_env w)) as [b env1]. cbn in *. subst b. reflexivity.
  - subst w'. cbn. rewrite <- app_assoc. repeat split; reflexivity.
Qed.

(** C8. With the [DEBUG] switch set, [ASSERT_WARNING], [ASSERT_ERROR] and
    [ASSERT_FATAL] are [ASSERT_DEBUG]: for every call site, expression,
    format call and world they give the result of the Debug-level dispatch
    (the gate of level Debug, the site's latch, the interactive handler),
    not that of the dispatch at their own level. *)
Theorem C8_debug_switch_expands_to_ASSERT_DEBUG (cs : CallSite)
    (e : Expression) (f : FormatCall) (w : World) :
  ASSERT_WARNING H true cs e f w = ASSERT_DEBUG H cs e f w
  /\ ASSERT_ERROR H true cs e f w = ASSERT_DEBUG H cs e f w
  /\ ASSERT_FATAL H true cs e f w = ASSERT_DEBUG H cs e f w
  /\ ASSERT_DEBUG H cs e f w = IMPL_DBGH_ASSERT_DEBUG H Debug cs e f w.
Proof. repeat split; reflexivity. Qed.

End MacroFacts.

(** ** Properties of the modelled handler and executor *)

Section ModelFacts.

Import CAssertConfigModel CHandlerExecutorModel CAssertHandlerModel.

Lemma string_append_assoc (a b c : string) : (a +:+ b) +:+ c = a +:+ (b +:+ c).
Proof.
  induction a as [|ch a IH]; [reflexivity|].
  change (String ch ((a +:+ b) +:+ c) = String ch (a +:+ (b +:+ c))).
  by rewrite IH.
Qed.

Lemma DisableAsserts_inactive level c :
  IsActiveAssert (DisableAsserts level c) level = false.
Proof. unfold IsActiveAssert, DisableAsserts. cbn. by rewrite decide_True. Qed.

Lemma at_handler_config level cs e f w : w_config (at_handler level cs e f w) = w_config w.
Proof.
  unfold at_handler, eval_expression, eval_format. cbn.
  destruct (e (w_env w)) as [b env1]. cbn. destruct (f env1) as [msg env2]. reflexivity.
Qed.

Lemma at_handler_io level cs e f w : w_io (at_handler level cs e f w) = w_io w.
Proof.
  unfold at_handler, eval_expression, eval_format. cbn.
  destruct (e (w_env w)) as [b env1]. cbn. destruct (f env1) as [msg env2]. reflexivity.
Qed.

Lemma at_handler_w_ignore level cs e f w : w_ignore (at_handler level cs e f w) = w_ignore w.
Proof.
  unfold at_handler, eval_expression, eval_format. cbn.
  destruct (e (w_env w)) as [b env1]. cbn. destruct (f env1) as [msg env2]. reflexivity.
Qed.

Lemma at_handler_ignore level cs e f w s :
  ignore_of (at_handler level cs e f w) s = ignore_of w s.
Proof. unfold ignore_of. by rewrite at_handler_w_ignore. Qed.

(** The protocol's resolution does not depend on what was written before,
    and it only adds to the diagnostic stream, the menu first. *)
Lemma prompting_resolve input cerr : (prompting input cerr).1.1 = resolve input.
Proof.
  revert cerr. induction input as [|r rest IH]; intros cerr; cbn; [reflexivity|].
  destruct (read_command r); [reflexivity | apply IH].
Qed.

Lemma prompting_cerr input cerr :
  exists more, (prompting input cerr).2 = cerr ++ menu :: more.
Proof.
  revert cerr. induction input as [|r rest IH]; intros cerr; cbn.
  - by exists [].
  - destruct (read_command r).
    + by exists [].
    + destruct (IH (cerr ++ [menu])) as [more ->].
      exists (menu :: more). by rewrite <- app_assoc.
Qed.

(** [HandleAssert] at level Debug on the call site's latch. *)
Lemma HandleAssert_Debug msg cs w :
  HandleAssert Debug msg cs (Some (site_id cs)) w =
    let ctx := failure_context Debug cs msg in
    let old := ignore_of w (site_id cs) in
    let '(r, new, io) := HandleInteractive (cfg_executor (w_config w)) ctx old (w_io w) in
    (surface r msg,
     write_ignore (site_id cs) old new (set_io io (record (EvExecutor ctx) w))).
Proof. reflexivity. Qed.

Lemma ignore_of_write site old new w s :
  ignore_of w site = old ->
  ignore_of (write_ignore site old new w) s =
    if decide (s = site) then new else ignore_of w s.
Proof.
  intros Hold. unfold write_ignore.
  destruct (decide (new = old)) as [->|Hne].
  - destruct (decide (s = site)) as [->|]; [by rewrite Hold | reflexivity].
  - unfold ignore_of. cbn. destruct (decide (s = site)) as [->|Hs].
    + by rewrite lookup_insert_eq.
    + by rewrite lookup_insert_ne.
Qed.

(** The resolution of a failing Debug check, end to end: what the
    executor's interactive operation returns decides how the check ends. *)
Lemma ASSERT_DEBUG_resolution cs e f w :
  ignore_of w (site_id cs) = false ->
  IsActiveAssert (w_config w) Debug = true ->
  fst (e (w_env w)) = false ->
  let msg := message_of e f w in
  let ctx := failure_context Debug cs msg in
  let res := HandleInteractive (cfg_executor (w_config w)) ctx false (w_io w) in
  let w3 := write_ignore (site_id cs) false res.1.2
              (set_io res.2 (record (EvExecutor ctx) (at_handler Debug cs e f w))) in
  ASSERT_DEBUG HandleAssert cs e f w =
    match res.1.1 with
    | Some Continue | Some Suppressed => (Normal, w3)
    | Some Escalate => (Throws (mkException CAssertException msg []), w3)
    | Some Abort => (Terminated, w3)
    | Some Break => (Normal, record (EvStartDebugging (site_id cs)) w3)
    | None => (Blocked, w3)
    end.
Proof.
  intros Hign Hact Hexp msg ctx res w3. unfold ASSERT_DEBUG.
  rewrite IMPL_DBGH_ASSERT_DEBUG_failing by assumption.
  rewrite HandleAssert_Debug. cbv zeta.
  rewrite at_handler_ignore, Hign, at_handler_config, at_handler_io.
  fold msg ctx res. subst w3.
  destruct res as [[r new] io]. cbn [fst snd].
  destruct r as [[| | | |]|]; reflexivity.
Qed.

(** C2. The claim fails where the executor throws an exception of a class
    derived from [CAssertException]: the executor's [HandleError] throws a
    [CDiskError] carrying a data member, [HandleAssert] lets it through, and
    the caller of [ASSERT_ERROR] receives a plain [CAssertException]
    without that member, the copy made by [throw e]. *)
Theorem C2_throw_e_slices_derived_exception :
  let w := set_config (SetExecutor Examples.deriving_executor
                         (w_config Examples.release_world)) Examples.release_world in
  let thrown := mkException (DerivedAssertException "CDiskError") "bad value 5" [28%Z] in
  let received := mkException CAssertException "bad value 5" [] in
  fst (HandleError (cfg_executor (w_config w))
         (failure_context Error Examples.site_A "bad value 5") (w_io w)) = Throws thrown
  /\ fst (HandleAssert Error "bad value 5" Examples.site_A None
            (at_handler Error Examples.site_A Examples.failing Examples.bad_value_5 w))
       = Throws thrown
  /\ fst (ASSERT_ERROR HandleAssert false Examples.site_A Examples.failing
            Examples.bad_value_5 w) = Throws received
  /\ exn_class received <> exn_class thrown
  /\ exn_members received <> exn_members thrown.
Proof. repeat split; try reflexivity; discriminate. Qed.

(** C3, as amended.  A failing Debug check that resolves to Break reaches
    the call site as an exception: for every handler the macro executes
    [START_DEBUGGING] exactly when an [SStartDebuggingException] leaves
    [HandleAssert].  That class is not the assertion exception and is not
    matched by its catch clause; the call site catches it, executes the
    breakpoint there and falls through. *)
Theorem C3_break_reaches_call_site_as_SStartDebuggingException
    (H : EAssertLevel -> string -> CallSite -> option positive -> World -> Outcome * World)
    (cs : CallSite) (e : Expression) (f : FormatCall) (w : World) :
  ignore_of w (site_id cs) = false ->
  IsActiveAssert (w_config w) Debug = true ->
  fst (e (w_env w)) = false ->
  let r := H Debug (message_of e f w) cs (Some (site_id cs)) (at_handler Debug cs e f w) in
  (ASSERT_DEBUG H cs e f w = (Normal, record (EvStartDebugging (site_id cs)) (snd r))
   <-> exists ex, fst r = Throws ex /\ exn_class ex = SStartDebuggingException)
  /\ (forall ex, exn_class ex = SStartDebuggingException ->
        exn_class ex <> CAssertException /\ catches_CAssertException ex = false)
  /\ (let ctx := failure_context Debug cs (message_of e f w) in
      let m := HandleAssert Debug (message_of e f w) cs (Some (site_id cs))
                 (at_handler Debug cs e f w) in
      (HandleInteractive (cfg_executor (w_config w)) ctx false (w_io w)).1.1 = Some Break ->
      fst m = Throws (mkException SStartDebuggingException "" [])
      /\ ASSERT_DEBUG HandleAssert cs e f w
           = (Normal, record (EvStartDebugging (site_id cs)) (snd m))).
Proof.
  intros Hign Hact Hexp r. split; [|split].
  - by apply debug_breakpoint_iff.
  - intros ex Hcls. unfold catches_CAssertException. rewrite Hcls. by split.
  - intros ctx m Hbreak.
    assert (Hm : fst m = Throws (mkException SStartDebuggingException "" [])).
    { subst m. rewrite HandleAssert_Debug. cbv zeta.
      rewrite at_handler_ignore, Hign, at_handler_config, at_handler_io.
      fold ctx.
      destruct (HandleInteractive (cfg_executor (w_config w)) ctx false (w_io w))
        as [[r0 new] io]. cbn in Hbreak. subst r0. reflexivity. }
    split; [exact Hm|].
    apply debug_breakpoint_iff; [assumption..|].
    eexists. split; [exact Hm | reflexivity].
Qed.

(** C3 as stated fails.  With [D] typed at the prompt the check resolves to
    Break, and what leaves [HandleAssert] is a thrown
    [SStartDebuggingException]; only then does the call site execute the
    breakpoint.  So it is not true that whenever the call site executes the
    breakpoint no exception has left the handler. *)
Lemma C3_counterexample_break_unwinds_out_of_handler :
  let w := Examples.debug_world [Token "D"] in
  let r := HandleAssert Debug "bad value 5" Examples.site_A (Some 1%positive)
             (at_handler Debug Examples.site_A Examples.failing Examples.bad_value_5 w) in
  (resolve (io_stdin (w_io w)) = Some Break
   /\ fst r = Throws (mkException SStartDebuggingException "" [])
   /\ ASSERT_DEBUG HandleAssert Examples.site_A Examples.failing Examples.bad_value_5 w
        = (Normal, record (EvStartDebugging 1) (snd r)))
  /\ ~ (forall (H : EAssertLevel -> string -> CallSite -> option positive -> World
                      -> Outcome * World) cs e f w0,
          ignore_of w0 (site_id cs) = false ->
          IsActiveAssert (w_config w0) Debug = true ->
          fst (e (w_env w0)) = false ->
          let rH := H Debug (message_of e f w0) cs (Some (site_id cs))
                      (at_handler Debug cs e f w0) in
          ASSERT_DEBUG H cs e f w0
            = (Normal, record (EvStartDebugging (site_id cs)) (snd rH)) ->
          forall ex, fst rH <> Throws ex).
Proof.
  intros w r.
  assert (Hrun : resolve (io_stdin (w_io w)) = Some Break
                 /\ fst r = Throws (mkException SStartDebuggingException "" [])
                 /\ ASSERT_DEBUG HandleAssert Examples.site_A Examples.failing
                      Examples.bad_value_5 w
                    = (Normal, record (EvStartDebugging 1) (snd r))).
  { repeat split; reflexivity. }
  split; [exact Hrun|].
  intros Hclaim. destruct Hrun as (_ & Hthrown & Hbreak).
  exact (Hclaim HandleAssert Examples.site_A Examples.failing Examples.bad_value_5 w
           eq_refl eq_refl eq_refl Hbreak _ Hthrown).
Qed.

(** C4. At a failing Debug check the resolution of the interactive
    operation of the installed executor, whichever executor it is, decides
    the end of the check: Continue and Suppressed fall through; Escalate
    leaves the check as a [CAssertException] with the formatted message;
    Abort terminates; Break records the breakpoint at the call site, after
    the handler is done, and falls through. *)
Theorem C4_resolution_translated_at_call_site (cs : CallSite)
    (e : Expression) (f : FormatCall) (w : World) :
  ignore_of w (site_id cs) = false ->
  IsActiveAssert (w_config w) Debug = true ->
  fst (e (w_env w)) = false ->
  let msg := message_of e f w in
  let ctx := failure_context Debug cs msg in
  let res := HandleInteractive (cfg_executor (w_config w)) ctx false (w_io w) in
  let w3 := write_ignore (site_id cs) false res.1.2
              (set_io res.2 (record (EvExecutor ctx) (at_handler Debug cs e f w))) in
  let result := ASSERT_DEBUG HandleAssert cs e f w in
  (res.1.1 = Some Continue -> result = (Normal, w3))
  /\ (res.1.1 = Some Suppressed -> result = (Normal, w3))
  /\ (res.1.1 = Some Escalate ->
        result = (Throws (mkException CAssertException msg []), w3))
  /\ (res.1.1 = Some Abort -> result = (Terminated, w3))
  /\ (res.1.1 = Some Break ->
        result = (Normal, record (EvStartDebugging (site_id cs)) w3)).
Proof.
  intros Hign Hact Hexp msg ctx res w3 result. subst result.
  rewrite ASSERT_DEBUG_resolution by assumption. fold msg ctx res w3.
  repeat split; intros ->; reflexivity.
Qed.

(** The default interactive operation: its resolution is the protocol's,
    and it leaves the latch true exactly on Suppressed. *)
Lemma default_HandleInteractive_resolution ctx latch io :
  (default_HandleInteractive ctx latch io).1.1 = resolve (io_stdin io).
Proof.
  unfold default_HandleInteractive.
  pose proof (prompting_resolve (io_stdin (report ctx io)) (io_cerr (report ctx io))) as Hr.
  destruct (prompting _ _) as [[r input] cerr]. exact Hr.
Qed.

Lemma default_HandleInteractive_latch ctx latch io :
  (default_HandleInteractive ctx latch io).1.2 =
    match resolve (io_stdin io) with Some Suppressed => true | _ => latch end.
Proof.
  unfold default_HandleInteractive.
  pose proof (prompting_resolve (io_stdin (report ctx io)) (io_cerr (report ctx io))) as Hr.
  destruct (prompting _ _) as [[r input] cerr]. cbn in *. by rewrite Hr.
Qed.

Lemma default_HandleInteractive_cerr ctx latch io :
  exists more,
    io_cerr (default_HandleInteractive ctx latch io).2 =
      io_cerr io ++ report_line (io_uncaught io) ctx :: menu :: more.
Proof.
  unfold default_HandleInteractive.
  destruct (prompting_cerr (io_stdin (report ctx io)) (io_cerr (report ctx io)))
    as [more Hmore].
  destruct (prompting _ _) as [[r input] cerr]. cbn in *.
  exists more. by rewrite Hmore, <- app_assoc.
Qed.

(** The world a failing Debug check leaves, whatever the resolution. *)
Lemma ASSERT_DEBUG_failing_world cs e f w :
  ignore_of w (site_id cs) = false ->
  IsActiveAssert (w_config w) Debug = true ->
  fst (e (w_env w)) = false ->
  let ctx := failure_context Debug cs (message_of e f w) in
  let res := HandleInteractive (cfg_executor (w_config w)) ctx false (w_io w) in
  let w3 := write_ignore (site_id cs) false res.1.2
              (set_io res.2 (record (EvExecutor ctx) (at_handler Debug cs e f w))) in
  let w' := snd (ASSERT_DEBUG HandleAssert cs e f w) in
  w_config w' = w_config w /\ w_ignore w' = w_ignore w3 /\ w_io w' = res.2.
Proof.
  intros Hign Hact Hexp ctx res w3 w'. subst w'.
  rewrite ASSERT_DEBUG_resolution by assumption. fold ctx res w3.
  assert (Hw3 : w_config w3 = w_config w /\ w_io w3 = res.2).
  { subst w3. unfold write_ignore. destruct (decide _); cbn;
      by rewrite at_handler_config. }
  destruct Hw3 as [Hc Hio].
  destruct res.1.1 as [[| | | |]|]; cbn; by rewrite ?Hc, ?Hio.
Qed.

(** The latch of every site after a Debug check under the default
    executor: what it was, or true at the site of a check that was active,
    failed and was resolved by the ignore-forever command. *)
Lemma ASSERT_DEBUG_ignore cs e f w s :
  cfg_executor (w_config w) = default_executor ->
  ignore_of (snd (ASSERT_DEBUG HandleAssert cs e f w)) s =
    ignore_of w s
    || (bool_decide (s = site_id cs)
        && (IsActiveAssert (w_config w) Debug
        && (negb (fst (e (w_env w)))
        && bool_decide (resolve (io_stdin (w_io w)) = Some Suppressed)))).
Proof.
  intros Hdef.
  destruct (ignore_of w (site_id cs)) eqn:Hign.
  { unfold ASSERT_DEBUG. rewrite IMPL_DBGH_ASSERT_DEBUG_latched by assumption. cbn.
    case_bool_decide as Hs; [subst s; by rewrite Hign | by rewrite orb_false_r]. }
  destruct (IsActiveAssert (w_config w) Debug) eqn:Hact; cycle 1.
  { unfold ASSERT_DEBUG. rewrite IMPL_DBGH_ASSERT_DEBUG_inactive by assumption. cbn.
    rewrite record_ignore. by rewrite andb_false_r, orb_false_r. }
  destruct (fst (e (w_env w))) eqn:Hexp.
  { unfold ASSERT_DEBUG. rewrite IMPL_DBGH_ASSERT_DEBUG_passing by assumption. cbn.
    by rewrite andb_false_r, orb_false_r. }
  destruct (ASSERT_DEBUG_failing_world cs e f w Hign Hact Hexp) as (_ & Hw & _).
  unfold ignore_of at 1. rewrite Hw.
  change (default false (w_ignore ?x !! s)) with (ignore_of x s).
  rewrite ignore_of_write
    by (change (ignore_of (at_handler Debug cs e f w) (site_id cs) = false);
        by rewrite at_handler_ignore).
  rewrite Hdef. change (HandleInteractive default_executor) with default_HandleInteractive.
  rewrite default_HandleInteractive_latch. cbn [negb andb].
  destruct (decide (s = site_id cs)) as [->|Hs].
  - rewrite Hign, bool_decide_eq_true_2 by reflexivity. cbn.
    destruct (resolve (io_stdin (w_io w))) as [[| | | |]|]; reflexivity.
  - rewrite bool_decide_eq_false_2 by assumption. cbn.
    rewrite orb_false_r. change (ignore_of (record ?ev ?x) s) with (ignore_of x s).
    apply at_handler_ignore.
Qed.

Lemma ASSERT_DEBUG_config cs e f w :
  w_config (snd (ASSERT_DEBUG HandleAssert cs e f w)) = w_config w.
Proof.
  destruct (ignore_of w (site_id cs)) eqn:Hign.
  { unfold ASSERT_DEBUG. by rewrite IMPL_DBGH_ASSERT_DEBUG_latched. }
  destruct (IsActiveAssert (w_config w) Debug) eqn:Hact; cycle 1.
  { unfold ASSERT_DEBUG. by rewrite IMPL_DBGH_ASSERT_DEBUG_inactive. }
  destruct (fst (e (w_env w))) eqn:Hexp.
  { unfold ASSERT_DEBUG. by rewrite IMPL_DBGH_ASSERT_DEBUG_passing. }
  by destruct (ASSERT_DEBUG_failing_world cs e f w Hign Hact Hexp) as (? & _).
Qed.

(** A failing Debug check at a site that is not latched prompts. *)
Lemma ASSERT_DEBUG_prompts cs e f w :
  cfg_executor (w_config w) = default_executor ->
  ignore_of w (site_id cs) = false ->
  IsActiveAssert (w_config w) Debug = true ->
  fst (e (w_env w)) = false ->
  prompted w (snd (ASSERT_DEBUG HandleAssert cs e f w)).
Proof.
  intros Hdef Hign Hact Hexp.
  destruct (ASSERT_DEBUG_failing_world cs e f w Hign Hact Hexp) as (_ & _ & Hio).
  unfold prompted. rewrite Hio, Hdef.
  change (HandleInteractive default_executor) with default_HandleInteractive.
  destruct (default_HandleInteractive_cerr
              (failure_context Debug cs (message_of e f w)) false (w_io w)) as [more Hmore].
  eexists _, more. exact Hmore.
Qed.

(** The latches are out of reach of the macro without a latch. *)
Lemma HandleAssert_None_ignore level msg cs w :
  w_ignore (snd (HandleAssert level msg cs None w)) = w_ignore w.
Proof.
  unfold HandleAssert. destruct level; cbn.
  - by destruct (HandleInteractive _ _ _ _) as [[r new] io].
  - by destruct (HandleWarning _ _ _) as [o io].
  - by destruct (HandleError _ _ _) as [o io].
  - by destruct (HandleFatal _ _ _) as [o io].
Qed.

Lemma IMPL_DBGH_ASSERT_ignore level cs e f w :
  w_ignore (snd (IMPL_DBGH_ASSERT HandleAssert level cs e f w)) = w_ignore w.
Proof.
  destruct (IsActiveAssert (w_config w) level) eqn:Hact; cycle 1.
  { by rewrite IMPL_DBGH_ASSERT_inactive. }
  destruct (fst (e (w_env w))) eqn:Hexp.
  { by rewrite IMPL_DBGH_ASSERT_passing. }
  rewrite IMPL_DBGH_ASSERT_failing by assumption.
  pose proof (HandleAssert_None_ignore level (message_of e f w) cs
                (at_handler level cs e f w)) as Hh.
  rewrite at_handler_w_ignore in Hh.
  destruct (HandleAssert _ _ _ _ _) as [[|ex| |] w4]; cbn in *; try exact Hh.
  destruct (catches_CAssertException ex); exact Hh.
Qed.

(** C5. Under the default executor the latch of a Debug call site starts
    false and is true after a check exactly if it was true before or the
    check was at that very site, active, failing, and resolved by the
    ignore-forever command.  So a latch is never reset, a check leaves the
    latches of all other sites as they were, the macro without a latch
    never writes one, and after ignore-forever at one site that site is
    silent while a failing check at another site still prompts. *)
Theorem C5_ignore_latch_per_site (cs : CallSite) (e : Expression) (f : FormatCall)
    (w : World) :
  cfg_executor (w_config w) = default_executor ->
  let w' := snd (ASSERT_DEBUG HandleAssert cs e f w) in
  (forall DEBUG io env s, ignore_of (initial_world DEBUG io env) s = false)
  /\ (forall s, ignore_of w' s = true <->
        ignore_of w s = true
        \/ (s = site_id cs /\ IsActiveAssert (w_config w) Debug = true
            /\ fst (e (w_env w)) = false
            /\ resolve (io_stdin (w_io w)) = Some Suppressed))
  /\ (forall s, ignore_of w s = true -> ignore_of w' s = true)
  /\ (forall s, s <> site_id cs -> ignore_of w' s = ignore_of w s)
  /\ (forall level cs0 e0 f0 w0,
        w_ignore (snd (IMPL_DBGH_ASSERT HandleAssert level cs0 e0 f0 w0)) = w_ignore w0)
  /\ (ignore_of w' (site_id cs) = true ->
        forall e1 f1, ASSERT_DEBUG HandleAssert cs e1 f1 w' = (Normal, w'))
  /\ (forall csB e1 f1,
        site_id csB <> site_id cs ->
        ignore_of w (site_id csB) = false ->
        IsActiveAssert (w_config w) Debug = true ->
        fst (e1 (w_env w')) = false ->
        prompted w' (snd (ASSERT_DEBUG HandleAssert csB e1 f1 w'))).
Proof.
  intros Hdef w'.
  assert (Hchar : forall s, ignore_of w' s =
            ignore_of w s
            || (bool_decide (s = site_id cs)
                && (IsActiveAssert (w_config w) Debug
                && (negb (fst (e (w_env w)))
                && bool_decide (resolve (io_stdin (w_io w)) = Some Suppressed))))).
  { intros s. by apply ASSERT_DEBUG_ignore. }
  assert (Hother : forall s, s <> site_id cs -> ignore_of w' s = ignore_of w s).
  { intros s Hs. rewrite Hchar, bool_decide_eq_false_2 by assumption.
    cbn. by rewrite orb_false_r. }
  split; [|split; [|split; [|split; [|split; [|split]]]]].
  - intros DEBUG io env s. reflexivity.
  - intros s. rewrite Hchar. rewrite orb_true_iff, !andb_true_iff.
    rewrite !bool_decide_eq_true, negb_true_iff. tauto.
  - intros s Hs. rewrite Hchar, Hs. reflexivity.
  - exact Hother.
  - intros. apply IMPL_DBGH_ASSERT_ignore.
  - intros Hset e1 f1. unfold ASSERT_DEBUG.
    by apply IMPL_DBGH_ASSERT_DEBUG_latched.
  - intros csB e1 f1 Hne HB Hact Hexp.
    assert (Hcfg : w_config w' = w_config w) by apply ASSERT_DEBUG_config.
    apply ASSERT_DEBUG_prompts.
    + by rewrite Hcfg.
    + by rewrite Hother.
    + by rewrite Hcfg.
    + exact Hexp.
Qed.

(** C6. Under the default executor a failing Error check reports the
    context and leaves [ASSERT_ERROR] as a [CAssertException] whose message
    is the formatted message: the report line written to the diagnostic
    stream carries the tag [[ERROR]] and ends with that same message. *)
Theorem C6_HandleError_escalates_with_formatted_message (cs : CallSite)
    (e : Expression) (f : FormatCall) (w : World) :
  cfg_executor (w_config w) = default_executor ->
  IsActiveAssert (w_config w) Error = true ->
  fst (e (w_env w)) = false ->
  let msg := message_of e f w in
  let ctx := failure_context Error cs msg in
  let line := report_line (io_uncaught (w_io w)) ctx in
  HandleError default_executor ctx (w_io w)
    = (Throws (mkException CAssertException msg []), report ctx (w_io w))
  /\ (exists w',
        ASSERT_ERROR HandleAssert false cs e f w
          = (Throws (mkException CAssertException msg []), w')
        /\ io_cerr (w_io w') = io_cerr (w_io w) ++ [line])
  /\ occurs_in "[ERROR]" line
  /\ (exists front, line = front +:+ msg)
  /\ occurs_in msg line.
Proof.
  intros Hdef Hact Hexp msg ctx line.
  assert (Hsuffix : exists front, line = front +:+ msg).
  { subst line. unfold report_line.
    eexists ("[" +:+ level_name (ctx_level ctx) +:+ "] Uncaught: "
             +:+ pretty (io_uncaught (w_io w))
             +:+ ", File: " +:+ ctx_file ctx
             +:+ ", Function: " +:+ ctx_func ctx
             +:+ ", Line: " +:+ pretty (ctx_line ctx)
             +:+ ", Expression: " +:+ dquote +:+ ctx_expr ctx +:+ dquote
             +:+ ", Message: ").
    rewrite !string_append_assoc. reflexivity. }
  split; [reflexivity|]. split; [|split; [|split]].
  - assert (Hh : HandleAssert Error msg cs None (at_handler Error cs e f w)
                 = (Throws (mkException CAssertException msg []),
                    set_io (report ctx (w_io w))
                      (record (EvExecutor ctx) (at_handler Error cs e f w)))).
    { unfold HandleAssert. cbv zeta. rewrite record_config, at_handler_config, Hdef.
      cbn. rewrite at_handler_io. reflexivity. }
    eexists. split.
    + unfold ASSERT_ERROR.
      rewrite (IMPL_DBGH_ASSERT_throws HandleAssert Error cs e f w _ _ Hact Hexp Hh).
      reflexivity.
    + reflexivity.
  - exists "", (" Uncaught: " +:+ pretty (io_uncaught (w_io w))
             +:+ ", File: " +:+ ctx_file ctx
             +:+ ", Function: " +:+ ctx_func ctx
             +:+ ", Line: " +:+ pretty (ctx_line ctx)
             +:+ ", Expression: " +:+ dquote +:+ ctx_expr ctx +:+ dquote
             +:+ ", Message: " +:+ ctx_message ctx).
    reflexivity.
  - exact Hsuffix.
  - destruct Hsuffix as [front Hfront]. exists front, "".
    rewrite Hfront. f_equal. clear. induction msg as [|c m IH]; [reflexivity|].
    change (String c m = String c (m +:+ "")). by rewrite <- IH.
Qed.

(** C7. The interactive protocol of the default executor.  The command
    alphabet is the table of [I], [F], [D], [T], [B] in either case, with
    resolutions Continue, Suppressed, Break, Escalate and Abort; a read is a
    command exactly if it is a token of that table, so a failed read and
    every other token are none.  A round that reads a command consumes that
    one read and ends the protocol with the resolution of the table, and
    the operation leaves the latch true on Suppressed and as it was on
    every other resolution.  A round that reads no command consumes that
    one read, emits the menu again and is followed by the next round, with
    no resolution and no change of the latch. *)
Theorem C7_interactive_protocol :
  commands = [("I", Continue); ("i", Continue);
              ("F", Suppressed); ("f", Suppressed);
              ("D", Break); ("d", Break);
              ("T", Escalate); ("t", Escalate);
              ("B", Abort); ("b", Abort)]
  /\ (forall rd r,
        read_command rd = Some r <-> exists s, rd = Token s /\ In (s, r) commands)
  /\ (forall s r, parse_command s = Some r <-> In (s, r) commands)
  /\ read_command ReadFailed = None
  /\ (forall s r rest cerr,
        In (s, r) commands ->
        prompting (Token s :: rest) cerr = (Some r, rest, cerr ++ [menu]))
  /\ (forall s rest cerr,
        (forall r, ~ In (s, r) commands) ->
        prompting (Token s :: rest) cerr = prompting rest (cerr ++ [menu]))
  /\ (forall rest cerr,
        prompting (ReadFailed :: rest) cerr = prompting rest (cerr ++ [menu]))
  /\ (forall cerr, prompting [] cerr = (None, [], cerr ++ [menu]))
  /\ (forall ctx latch s r rest cerr n,
        In (s, r) commands ->
        (default_HandleInteractive ctx latch (mkIO (Token s :: rest) cerr n)).1
          = (Some r, if decide (r = Suppressed) then true else latch)
        /\ io_stdin (default_HandleInteractive ctx latch
                       (mkIO (Token s :: rest) cerr n)).2 = rest)
  /\ (forall ctx latch rd rest cerr n,
        rd = ReadFailed \/ (exists s, rd = Token s /\ forall r, ~ In (s, r) commands) ->
        (default_HandleInteractive ctx latch (mkIO (rd :: rest) cerr n)).1
          = (default_HandleInteractive ctx latch (mkIO rest cerr n)).1)
  /\ (forall rd rest cerr,
        read_command rd = None ->
        prompting (rd :: rest) cerr = prompting rest (cerr ++ [menu]))
  /\ (forall rd res rest cerr,
        read_command rd = Some res ->
        prompting (rd :: rest) cerr = (Some res, rest, cerr ++ [menu]))
  /\ (forall ctx latch io,
        (default_HandleInteractive ctx latch io).1.1 = resolve (io_stdin io)
        /\ (default_HandleInteractive ctx latch io).1.2 =
             match resolve (io_stdin io) with
             | Some Suppressed => true
             | _ => latch
             end)
  /\ (forall ctx latch rd rest cerr n,
        read_command rd = None ->
        (default_HandleInteractive ctx latch (mkIO (rd :: rest) cerr n)).1
          = (default_HandleInteractive ctx latch (mkIO rest cerr n)).1).
Proof.
  assert (Hparse : forall s r, parse_command s = Some r <-> In (s, r) commands).
  { intros s r. split.
    + unfold parse_command. intros Hp.
      repeat match type of Hp with
             | (if (String.eqb ?a ?b || String.eqb ?a ?c)%bool then _ else _) = _ =>
                 destruct (String.eqb_spec a b) as [->|_];
                 [|destruct (String.eqb_spec a c) as [->|_]]; cbn [orb] in Hp
             end;
        first [ discriminate Hp
              | injection Hp as <-; cbn; tauto ].
    + cbn. intros Hin.
      repeat (destruct Hin as [Heq|Hin]; [injection Heq as <- <-; reflexivity|]).
      destruct Hin. }
  assert (Hnone : forall s, (forall r, ~ In (s, r) commands) -> parse_command s = None).
  { intros s Hnot. destruct (parse_command s) as [r|] eqn:Hp; [|reflexivity].
    destruct (Hnot r). by apply Hparse. }
  assert (Hskip : forall ctx latch rd rest cerr n,
             read_command rd = None ->
             (default_HandleInteractive ctx latch (mkIO (rd :: rest) cerr n)).1
               = (default_HandleInteractive ctx latch (mkIO rest cerr n)).1).
  { intros ctx latch rd rest cerr n Hrd.
    apply injective_projections.
    + rewrite !default_HandleInteractive_resolution. cbn. by rewrite Hrd.
    + rewrite !default_HandleInteractive_latch. cbn. by rewrite Hrd. }
  split; [reflexivity|].
  split.
  { intros rd r. split.
    - destruct rd as [s|]; cbn; [|discriminate].
      intros Hp. exists s. split; [reflexivity | by apply Hparse].
    - intros (s & -> & Hin). cbn. by apply Hparse. }
  split; [exact Hparse|].
  split; [reflexivity|].
  split.
  { intros s r rest cerr Hin. cbn. apply Hparse in Hin. by rewrite Hin. }
  split.
  { intros s rest cerr Hnot. cbn. by rewrite (Hnone s Hnot). }
  split; [reflexivity|].
  split; [reflexivity|].
  split.
  { intros ctx latch s r rest cerr n Hin. apply Hparse in Hin. split.
    - apply injective_projections.
      + rewrite default_HandleInteractive_resolution. cbn. by rewrite Hin.
      + rewrite default_HandleInteractive_latch. cbn. rewrite Hin.
        by destruct r.
    - unfold default_HandleInteractive. cbn. by rewrite Hin. }
  split.
  { intros ctx latch rd rest cerr n [->|(s & -> & Hnot)]; apply Hskip.
    - reflexivity.
    - cbn. by apply Hnone. }
  split.
  { intros rd rest cerr Hrd. cbn. by rewrite Hrd. }
  split.
  { intros rd res rest cerr Hsome. cbn. by rewrite Hsome. }
  split.
  { intros ctx latch io. split.
    + apply default_HandleInteractive_resolution.
    + apply default_HandleInteractive_latch. }
  exact Hskip.
Qed.

(** ** The theorems at concrete inputs *)

(** C1 at a release build in which Warning was disabled, with a guarded
    expression that counts its evaluations. *)
Lemma C1_inactive_level_no_action_witness :
  let w := set_config (DisableAsserts Warning (w_config Examples.release_world))
             Examples.release_world in
  IsActiveAssert (w_config w) Warning = false
  /\ IMPL_DBGH_ASSERT HandleAssert Warning Examples.site_A Examples.counting
       Examples.bad_value_5 w = (Normal, record (EvIsActiveAssert Warning) w)
  /\ IMPL_DBGH_ASSERT_DEBUG HandleAssert Warning Examples.site_A Examples.counting
       Examples.bad_value_5 w =
       (Normal, if ignore_of w (site_id Examples.site_A) then w
                else record (EvIsActiveAssert Warning) w).
Proof.
  intros w. split; [reflexivity|].
  apply (C1_inactive_level_no_action HandleAssert Warning Examples.site_A
           Examples.counting Examples.bad_value_5 w).
  reflexivity.
Defined.

(** C9 at site A once its latch is set. *)
Lemma C9_latched_site_skips_gate_and_expression_witness :
  let w := set_ignore {[ 1%positive := true ]} (Examples.debug_world [Token "T"]) in
  ignore_of w (site_id Examples.site_A) = true
  /\ IMPL_DBGH_ASSERT_DEBUG HandleAssert Debug Examples.site_A Examples.counting
       Examples.bad_value_5 w = (Normal, w).
Proof.
  intros w. split; [reflexivity|].
  apply (C9_latched_site_skips_gate_and_expression HandleAssert Debug Examples.site_A
           Examples.counting Examples.bad_value_5 w).
  reflexivity.
Defined.

(** C10 at a passing Warning check of a release build. *)
Lemma C10_passing_check_formats_nothing_witness :
  let w := Examples.release_world in
  (IsActiveAssert (w_config w) Warning = true
   /\ fst (Examples.passing (w_env w)) = true)
  /\ IMPL_DBGH_ASSERT HandleAssert Warning Examples.site_A Examples.passing
       Examples.bad_value_5 w =
       (Normal, record (EvExpression 1)
                  (set_env (snd (Examples.passing (w_env w)))
                     (record (EvIsActiveAssert Warning) w))).
Proof.
  intros w. split; [split; reflexivity|].
  apply (C10_passing_check_formats_nothing HandleAssert Warning Examples.site_A
           Examples.passing Examples.bad_value_5 w); reflexivity.
Defined.

(** C3 (amended) at a debug build with [D] typed at the prompt. *)
Lemma C3_break_reaches_call_site_as_SStartDebuggingException_witness :
  let w := Examples.debug_world [Token "D"] in
  (ignore_of w (site_id Examples.site_A) = false
   /\ IsActiveAssert (w_config w) Debug = true
   /\ fst (Examples.failing (w_env w)) = false)
  /\ exists ex,
       fst (HandleAssert Debug (message_of Examples.failing Examples.bad_value_5 w)
              Examples.site_A (Some (site_id Examples.site_A))
              (at_handler Debug Examples.site_A Examples.failing Examples.bad_value_5 w))
         = Throws ex
       /\ exn_class ex = SStartDebuggingException.
Proof.
  intros w. split; [repeat split; reflexivity|].
  apply (proj1 (C3_break_reaches_call_site_as_SStartDebuggingException HandleAssert
                  Examples.site_A Examples.failing Examples.bad_value_5 w
                  eq_refl eq_refl eq_refl)).
  reflexivity.
Defined.

(** C4 at a debug build with [t] typed at the prompt: the check escalates. *)
Lemma C4_resolution_translated_at_call_site_witness :
  let w := Examples.debug_world [Token "t"] in
  (ignore_of w (site_id Examples.site_A) = false
   /\ IsActiveAssert (w_config w) Debug = true
   /\ fst (Examples.failing (w_env w)) = false)
  /\ fst (ASSERT_DEBUG HandleAssert Examples.site_A Examples.failing
            Examples.bad_value_5 w)
     = Throws (mkException CAssertException "bad value 5" []).
Proof.
  intros w. split; [repeat split; reflexivity|].
  rewrite (proj1 (proj2 (proj2
             (C4_resolution_translated_at_call_site Examples.site_A Examples.failing
                Examples.bad_value_5 w eq_refl eq_refl eq_refl))) eq_refl).
  reflexivity.
Defined.

(** C5 at two sites of a debug build: ignore-forever at site A sets the
    latch of A and leaves that of B. *)
Lemma C5_ignore_latch_per_site_witness :
  let w := Examples.debug_world [Token "F"; Token "I"] in
  let w' := snd (ASSERT_DEBUG HandleAssert Examples.site_A Examples.failing
                   Examples.bad_value_5 w) in
  cfg_executor (w_config w) = default_executor
  /\ ignore_of w' (site_id Examples.site_A) = true
  /\ ignore_of w' (site_id Examples.site_B) = ignore_of w (site_id Examples.site_B)
  /\ prompted w' (snd (ASSERT_DEBUG HandleAssert Examples.site_B Examples.failing
                         Examples.bad_value_5 w')).
Proof.
  intros w w'. split; [reflexivity|].
  destruct (C5_ignore_latch_per_site Examples.site_A Examples.failing
              Examples.bad_value_5 w eq_refl)
    as (_ & Hset & _ & Hother & _ & _ & Hprompt).
  split; [|split].
  - apply Hset. right. repeat split; reflexivity.
  - apply Hother. discriminate.
  - apply Hprompt; [discriminate | reflexivity..].
Defined.

(** C6 at the check [ASSERT_ERROR(2 < 1, "bad value {}", 5)] of a release
    build: the exception caught by the caller carries ["bad value 5"]. *)
Lemma C6_HandleError_escalates_with_formatted_message_witness :
  let w := Examples.release_world in
  (cfg_executor (w_config w) = default_executor
   /\ IsActiveAssert (w_config w) Error = true
   /\ fst (Examples.failing (w_env w)) = false)
  /\ exists w',
       ASSERT_ERROR HandleAssert false Examples.site_A Examples.failing
         Examples.bad_value_5 w
         = (Throws (mkException CAssertException "bad value 5" []), w')
       /\ io_cerr (w_io w') =
            io_cerr (w_io w)
            ++ [report_line 0 (failure_context Error Examples.site_A "bad value 5")].
Proof.
  intros w. split; [repeat split; reflexivity|].
  exact (proj1 (proj2 (C6_HandleError_escalates_with_formatted_message
                         Examples.site_A Examples.failing Examples.bad_value_5 w
                         eq_refl eq_refl eq_refl))).
Defined.

(** C7 at the input [x], then a failed read, then [d], and at [F] with the
    latch still false. *)
Lemma C7_interactive_protocol_witness :
  (In ("d", Break) commands /\ In ("F", Suppressed) commands
   /\ forall r, ~ In ("x", r) commands)
  /\ prompting [Token "x"; ReadFailed; Token "d"] []
     = prompting [ReadFailed; Token "d"] ([] ++ [menu])
  /\ prompting [Token "d"] [menu; menu] = (Some Break, [], [menu; menu] ++ [menu])
  /\ (default_HandleInteractive
        (failure_context Debug Examples.site_A "bad value 5") false
        (mkIO [Token "F"; Token "I"] [] 0)).1 = (Some Suppressed, true).
Proof.
  assert (Hd : In ("d", Break) commands) by (vm_compute; tauto).
  assert (HF : In ("F", Suppressed) commands) by (vm_compute; tauto).
  assert (Hx : forall r, ~ In ("x", r) commands).
  { intros r Hin.
    repeat (destruct Hin as [Heq|Hin]; [discriminate Heq|]). destruct Hin. }
  split; [by repeat split|].
  destruct C7_interactive_protocol
    as (_ & _ & _ & _ & Hcommand & Hother & _ & _ & Hoperation & _).
  split; [|split].
  - apply Hother. exact Hx.
  - apply Hcommand. exact Hd.
  - apply (Hoperation _ false "F" Suppressed [Token "I"] [] 0 HF).
Defined.

End ModelFacts.

(** ** Further laws of the macros, for every [HandleAssert] *)

Section MacroLaws.

#[local] Set Warnings "-clear-no-such-hyp".

Variable HA : EAssertLevel -> string -> CallSite -> option positive -> World -> Outcome * World.

Lemma IMPL_DBGH_ASSERT_try level cs e f w :
  IsActiveAssert (w_config w) level = true ->
  fst (e (w_env w)) = false ->
  IMPL_DBGH_ASSERT HA level cs e f w =
    try_block (HA level (message_of e f w) cs None (at_handler level cs e f w)).
Proof.
  intros Hact Hexp. rewrite IMPL_DBGH_ASSERT_failing by assumption.
  by destruct (HA _ _ _ _ _) as [[|ex| |] w'].
Qed.

Lemma IMPL_DBGH_ASSERT_DEBUG_try level cs e f w :
  ignore_of w (site_id cs) = false ->
  IsActiveAssert (w_config w) level = true ->
  fst (e (w_env w)) = false ->
  IMPL_DBGH_ASSERT_DEBUG HA level cs e f w =
    try_block_DEBUG cs
      (HA level (message_of e f w) cs (Some (site_id cs)) (at_handler level cs e f w)).
Proof.
  intros Hign Hact Hexp. rewrite IMPL_DBGH_ASSERT_DEBUG_failing by assumption.
  by destruct (HA _ _ _ _ _) as [[|ex| |] w'].
Qed.

Lemma catches_SStartDebuggingException_class ex :
  catches_SStartDebuggingException ex = true <-> exn_class ex = SStartDebuggingException.
Proof. unfold catches_SStartDebuggingException. destruct (exn_class ex); naive_solver. Qed.

(** X3. An exception that leaves [HandleAssert] and is not of class
    [CAssertException] or derived from it leaves [IMPL_DBGH_ASSERT] as the
    very object that was thrown; this includes [SStartDebuggingException],
    for which that macro has no clause.  In [IMPL_DBGH_ASSERT_DEBUG] the
    same holds for every such class but [SStartDebuggingException].  In
    both the world is the one [HandleAssert] left. *)
Theorem X3_foreign_exception_passes_unchanged (level : EAssertLevel) (cs : CallSite)
    (e : Expression) (f : FormatCall) (w : World) (ex : Exception) (w' : World) :
  IsActiveAssert (w_config w) level = true ->
  fst (e (w_env w)) = false ->
  catches_CAssertException ex = false ->
  (HA level (message_of e f w) cs None (at_handler level cs e f w) = (Throws ex, w') ->
   IMPL_DBGH_ASSERT HA level cs e f w = (Throws ex, w'))
  /\ (ignore_of w (site_id cs) = false ->
      exn_class ex <> SStartDebuggingException ->
      HA level (message_of e f w) cs (Some (site_id cs)) (at_handler level cs e f w)
        = (Throws ex, w') ->
      IMPL_DBGH_ASSERT_DEBUG HA level cs e f w = (Throws ex, w')).
Proof.
  intros Hact Hexp Hforeign. split.
  - intros Hthrow. rewrite IMPL_DBGH_ASSERT_try, Hthrow by assumption.
    cbn. by rewrite Hforeign.
  - intros Hign Hclass Hthrow. rewrite IMPL_DBGH_ASSERT_DEBUG_try, Hthrow by assumption.
    cbn. rewrite Hforeign.
    destruct (catches_SStartDebuggingException ex) eqn:Hsd; [|reflexivity].
    by apply catches_SStartDebuggingException_class in Hsd.
Qed.

(** X4. An exception of class [CAssertException] or of a class derived from
    it that leaves [HandleAssert] reaches the caller of either macro as a
    plain [CAssertException] with the same message; when the object thrown
    was itself a plain [CAssertException], what the caller receives is equal
    to it. *)
Theorem X4_assertion_exception_rethrown_as_copy (level : EAssertLevel) (cs : CallSite)
    (e : Expression) (f : FormatCall) (w : World) (ex : Exception) (w' : World) :
  IsActiveAssert (w_config w) level = true ->
  fst (e (w_env w)) = false ->
  catches_CAssertException ex = true ->
  let received := mkException CAssertException (exn_message ex) [] in
  (HA level (message_of e f w) cs None (at_handler level cs e f w) = (Throws ex, w') ->
   IMPL_DBGH_ASSERT HA level cs e f w = (Throws received, w'))
  /\ (ignore_of w (site_id cs) = false ->
      HA level (message_of e f w) cs (Some (site_id cs)) (at_handler level cs e f w)
        = (Throws ex, w') ->
      IMPL_DBGH_ASSERT_DEBUG HA level cs e f w = (Throws received, w'))
  /\ (exn_class ex = CAssertException -> exn_members ex = [] -> received = ex).
Proof.
  intros Hact Hexp Hassert received. split; [|split].
  - intros Hthrow. rewrite IMPL_DBGH_ASSERT_try, Hthrow by assumption.
    cbn. by rewrite Hassert.
  - intros Hign Hthrow. rewrite IMPL_DBGH_ASSERT_DEBUG_try, Hthrow by assumption.
    cbn. rewrite Hassert.
    destruct (catches_SStartDebuggingException ex) eqn:Hsd; [|reflexivity].
    apply catches_SStartDebuggingException_class in Hsd.
    unfold catches_CAssertException in Hassert. by rewrite Hsd in Hassert.
  - intros Hclass Hmembers. subst received. destruct ex as [c m l].
    cbn in *. by subst.
Qed.

(** X6. The [DEBUG] switch changes which gate a macro consults.  A failing
    [ASSERT_FATAL] with Fatal disabled and Debug enabled does nothing when
    [DEBUG] is not defined, and enters [HandleAssert] at level Debug when it
    is; a failing [ASSERT_WARNING] with Warning enabled and Debug disabled
    enters [HandleAssert] at level Warning when [DEBUG] is not defined, and
    does nothing when it is. *)
Theorem X6_DEBUG_switch_changes_the_gate (cs : CallSite)
    (e : Expression) (f : FormatCall) (w : World) :
  ignore_of w (site_id cs) = false ->
  fst (e (w_env w)) = false ->
  (IsActiveAssert (w_config w) Fatal = false ->
   IsActiveAssert (w_config w) Debug = true ->
   ASSERT_FATAL HA false cs e f w = (Normal, record (EvIsActiveAssert Fatal) w)
   /\ ASSERT_FATAL HA true cs e f w =
        try_block_DEBUG cs
          (HA Debug (message_of e f w) cs (Some (site_id cs)) (at_handler Debug cs e f w)))
  /\ (IsActiveAssert (w_config w) Warning = true ->
      IsActiveAssert (w_config w) Debug = false ->
      ASSERT_WARNING HA false cs e f w =
        try_block (HA Warning (message_of e f w) cs None (at_handler Warning cs e f w))
      /\ ASSERT_WARNING HA true cs e f w = (Normal, record (EvIsActiveAssert Debug) w)).
Proof.
  intros Hign Hexp. split.
  - intros Hfatal Hdebug. split.
    + by apply IMPL_DBGH_ASSERT_inactive.
    + by apply IMPL_DBGH_ASSERT_DEBUG_try.
  - intros Hwarning Hdebug. split.
    + by apply IMPL_DBGH_ASSERT_try.
    + by apply IMPL_DBGH_ASSERT_DEBUG_inactive.
Qed.

End MacroLaws.

(** ** Laws of the macros over arbitrary operands *)

Section EffectfulLaws.

#[local] Set Warnings "-clear-no-such-hyp".

Variable HA : EAssertLevel -> string -> CallSite -> option positive -> World -> Outcome * World.

(** A fact [A] below guards that are decided: [A <-> g1 \/ (g2 /\ ...A)]. *)
Ltac wrap Hyes :=
  first [ exact Hyes
        | split; [reflexivity | wrap Hyes]
        | right; wrap Hyes ].

Ltac peel Hc :=
  first [ exact Hc
        | discriminate Hc
        | match type of Hc with
          | _ \/ _ => destruct Hc as [Hc|Hc]; peel Hc
          | _ /\ _ =>
              let Hg := fresh in
              destruct Hc as [Hg Hc]; first [discriminate Hg | peel Hc]
          | exists _, _ => destruct Hc as [? Hc]; peel Hc
          end ].

Ltac guarded := split; [ intros Hyes; wrap Hyes | intros Hc; peel Hc ].

(** At operands over the program's variables alone the macros over
    arbitrary operands are the macros of the first part. *)
Lemma Effectful_IMPL_DBGH_ASSERT_pure level cs e f w :
  Effectful.IMPL_DBGH_ASSERT HA level cs (pure_expression e) (pure_format f) w
    = IMPL_DBGH_ASSERT HA level cs e f w.
Proof.
  unfold Effectful.IMPL_DBGH_ASSERT, IMPL_DBGH_ASSERT, Effectful.condition,
    Effectful.try_body, pure_expression, pure_format, eval_expression, eval_format.
  destruct (IsActiveAssert _ level); [|reflexivity]. cbn.
  destruct (e (w_env w)) as [b env1]. destruct b; cbn; [reflexivity|].
  destruct (f env1) as [msg env2]. cbn.
  by destruct (HA _ _ _ _ _) as [[|ex| |] w'].
Qed.

Lemma Effectful_IMPL_DBGH_ASSERT_DEBUG_pure level cs e f w :
  Effectful.IMPL_DBGH_ASSERT_DEBUG HA level cs (pure_expression e) (pure_format f) w
    = IMPL_DBGH_ASSERT_DEBUG HA level cs e f w.
Proof.
  unfold Effectful.IMPL_DBGH_ASSERT_DEBUG, IMPL_DBGH_ASSERT_DEBUG, Effectful.condition,
    Effectful.try_body, pure_expression, pure_format, eval_expression, eval_format.
  destruct (ignore_of w (site_id cs)); [reflexivity|]. cbn [negb].
  destruct (IsActiveAssert _ level); [|reflexivity]. cbn.
  destruct (e (w_env w)) as [b env1]. destruct b; cbn; [reflexivity|].
  destruct (f env1) as [msg env2]. cbn.
  by destruct (HA _ _ _ _ _) as [[|ex| |] w'].
Qed.

(** How the two [try] blocks end, from the way their body ended. *)
Lemma try_block_ends r :
  (fst (try_block r) = Normal <-> fst r = Normal)
  /\ ((exists ex', fst (try_block r) = Throws ex') <-> exists ex, fst r = Throws ex)
  /\ (fst (try_block r) = Terminated <-> fst r = Terminated).
Proof.
  destruct r as [[|ex| |] w']; cbn; try naive_solver.
  destruct (catches_CAssertException ex); cbn; naive_solver.
Qed.

Lemma try_block_DEBUG_ends cs r :
  (fst (try_block_DEBUG cs r) = Normal <->
     fst r = Normal
     \/ exists ex, fst r = Throws ex /\ exn_class ex = SStartDebuggingException)
  /\ (forall ex', fst (try_block_DEBUG cs r) = Throws ex' ->
        exn_class ex' <> SStartDebuggingException)
  /\ (fst (try_block_DEBUG cs r) = Terminated <-> fst r = Terminated).
Proof.
  destruct r as [[|ex| |] w']; cbn; try naive_solver.
  unfold catches_SStartDebuggingException, catches_CAssertException.
  destruct ex as [c m l]. destruct c; cbn; naive_solver.
Qed.

(** How the body of a [try] block ends: as [HandleAssert] does when the
    format call yields a message, as the format call does otherwise. *)
Lemma try_body_ends level cs f ref w1 :
  let F := f w1 in
  let B := Effectful.try_body HA level cs f ref w1 in
  let called msg :=
    HA level msg cs ref
       (record (EvHandleAssert level (site_id cs) msg)
          (record (EvFormat (site_id cs)) (snd F))) in
  (fst B = Normal <-> exists msg, fst F = Yields msg /\ fst (called msg) = Normal)
  /\ (forall ex, fst B = Throws ex <->
        fst F = Raises ex
        \/ exists msg, fst F = Yields msg /\ fst (called msg) = Throws ex)
  /\ (fst B = Terminated <->
        fst F = Exits
        \/ exists msg, fst F = Yields msg /\ fst (called msg) = Terminated).
Proof.
  intros F B called. subst F B called. unfold Effectful.try_body.
  destruct (f w1) as [[msg|exf| |] w2]; cbn [fst snd abrupt].
  - split; [|split; [intros ex|]]; (split;
      [ intros Hcall; try right; exists msg; by split
      | intros Hcase;
        repeat match goal with
               | Hx : _ \/ _ |- _ => destruct Hx
               | Hx : exists _, _ |- _ => destruct Hx
               | Hx : _ /\ _ |- _ => destruct Hx
               end; try discriminate;
        match goal with Hx : Yields _ = Yields _ |- _ => injection Hx as -> end;
        assumption ]).
  - naive_solver.
  - naive_solver.
  - naive_solver.
Qed.

(** X1. How [IMPL_DBGH_ASSERT] ends, for operands that are arbitrary C++.
    It falls through exactly if the level is inactive, or the expression
    yields true, or it yields false, the format call yields a message and
    [HandleAssert] returns.  An exception leaves it exactly if one leaves
    the expression, the format call or [HandleAssert]; it terminates the
    process exactly if one of the three does. *)
Theorem X1_IMPL_DBGH_ASSERT_outcome (level : EAssertLevel) (cs : CallSite)
    (e : Operand bool) (f : Operand string) (w : World) :
  let active := IsActiveAssert (w_config w) level in
  let C := Effectful.condition cs e (record (EvIsActiveAssert level) w) in
  let F := f (snd C) in
  let called msg :=
    HA level msg cs None
       (record (EvHandleAssert level (site_id cs) msg)
          (record (EvFormat (site_id cs)) (snd F))) in
  let check := Effectful.IMPL_DBGH_ASSERT HA level cs e f w in
  (fst check = Normal <->
     active = false
     \/ (active = true
         /\ (fst C = Yields true
             \/ (fst C = Yields false
                 /\ exists msg, fst F = Yields msg /\ fst (called msg) = Normal))))
  /\ ((exists ex', fst check = Throws ex') <->
        active = true
        /\ ((exists ex, fst C = Raises ex)
            \/ (fst C = Yields false
                /\ exists ex,
                     fst F = Raises ex
                     \/ exists msg, fst F = Yields msg /\ fst (called msg) = Throws ex)))
  /\ (fst check = Terminated <->
        active = true
        /\ (fst C = Exits
            \/ (fst C = Yields false
                /\ (fst F = Exits
                    \/ exists msg, fst F = Yields msg /\ fst (called msg) = Terminated)))).
Proof.
  intros active C F called check. subst active C F called check.
  unfold Effectful.IMPL_DBGH_ASSERT. rewrite record_config.
  destruct (IsActiveAssert (w_config w) level); [|cbn; naive_solver].
  destruct (Effectful.condition cs e (record (EvIsActiveAssert level) w))
    as [[[|]|exc| |] w1]; cbn [fst snd negb abrupt]; try naive_solver.
  destruct (try_block_ends (Effectful.try_body HA level cs f None w1))
    as (Hn & Ht & Hx).
  destruct (try_body_ends level cs f None w1) as (Bn & Bt & Bx).
  cbv zeta in Bn, Bt, Bx.
  rewrite Hn, Ht, Hx, Bn, Bx. setoid_rewrite Bt.
  split; [guarded|]. split; guarded.
Qed.

(** X2. How [IMPL_DBGH_ASSERT_DEBUG] ends, for operands that are arbitrary
    C++.  It falls through exactly if the site is latched, or the level is
    inactive, or the expression yields true, or it yields false and inside
    the [try] block either [HandleAssert] returns or an
    [SStartDebuggingException] is thrown, by [HandleAssert] or by the format
    call.  An [SStartDebuggingException] reaches the caller only if the
    guarded expression threw it.  The check terminates the process exactly
    if the expression, the format call or [HandleAssert] does. *)
Theorem X2_IMPL_DBGH_ASSERT_DEBUG_outcome (level : EAssertLevel) (cs : CallSite)
    (e : Operand bool) (f : Operand string) (w : World) :
  let latched := ignore_of w (site_id cs) in
  let active := IsActiveAssert (w_config w) level in
  let C := Effectful.condition cs e (record (EvIsActiveAssert level) w) in
  let F := f (snd C) in
  let called msg :=
    HA level msg cs (Some (site_id cs))
       (record (EvHandleAssert level (site_id cs) msg)
          (record (EvFormat (site_id cs)) (snd F))) in
  let check := Effectful.IMPL_DBGH_ASSERT_DEBUG HA level cs e f w in
  (fst check = Normal <->
     latched = true
     \/ (latched = false
         /\ (active = false
             \/ (active = true
                 /\ (fst C = Yields true
                     \/ (fst C = Yields false
                         /\ ((exists msg, fst F = Yields msg /\ fst (called msg) = Normal)
                             \/ exists ex,
                                  (fst F = Raises ex
                                   \/ exists msg,
                                        fst F = Yields msg
                                        /\ fst (called msg) = Throws ex)
                                  /\ exn_class ex = SStartDebuggingException)))))))
  /\ (forall ex',
        fst check = Throws ex' ->
        exn_class ex' = SStartDebuggingException ->
        fst C = Raises ex')
  /\ (fst check = Terminated <->
        latched = false /\ active = true
        /\ (fst C = Exits
            \/ (fst C = Yields false
                /\ (fst F = Exits
                    \/ exists msg, fst F = Yields msg /\ fst (called msg) = Terminated)))).
Proof.
  intros latched active C F called check. subst latched active C F called check.
  unfold Effectful.IMPL_DBGH_ASSERT_DEBUG.
  destruct (ignore_of w (site_id cs)); cbn [negb]; [cbn; naive_solver|].
  rewrite record_config.
  destruct (IsActiveAssert (w_config w) level); [|cbn; naive_solver].
  destruct (Effectful.condition cs e (record (EvIsActiveAssert level) w))
    as [[[|]|exc| |] w1]; cbn [fst snd negb abrupt]; try naive_solver.
  destruct (try_block_DEBUG_ends cs
              (Effectful.try_body HA level cs f (Some (site_id cs)) w1))
    as (Hn & Ht & Hx).
  destruct (try_body_ends level cs f (Some (site_id cs)) w1) as (Bn & Bt & Bx).
  cbv zeta in Bn, Bt, Bx.
  rewrite Hn, Hx, Bn, Bx. setoid_rewrite Bt.
  split; [guarded|]. split; [|guarded].
  intros ex' Hthrow Hclass. by destruct (Ht ex' Hthrow).
Qed.

(** X5. The two dispatch macros agree at a site that is not latched,
    whenever the body of the [try] block (the format call, then
    [HandleAssert]) ends the same way with and without the latch reference
    and throws no [SStartDebuggingException]: the Debug macro adds the
    latch test and the breakpoint clause and nothing else. *)
Theorem X5_DEBUG_macro_agrees_with_plain_macro (level : EAssertLevel) (cs : CallSite)
    (e : Operand bool) (f : Operand string) (w : World) :
  let C := Effectful.condition cs e (record (EvIsActiveAssert level) w) in
  ignore_of w (site_id cs) = false ->
  Effectful.try_body HA level cs f (Some (site_id cs)) (snd C)
    = Effectful.try_body HA level cs f None (snd C) ->
  (forall ex,
     fst (Effectful.try_body HA level cs f None (snd C)) = Throws ex ->
     exn_class ex <> SStartDebuggingException) ->
  Effectful.IMPL_DBGH_ASSERT_DEBUG HA level cs e f w
    = Effectful.IMPL_DBGH_ASSERT HA level cs e f w.
Proof.
  intros C Hign Hsame Hnobreak. subst C.
  unfold Effectful.IMPL_DBGH_ASSERT_DEBUG, Effectful.IMPL_DBGH_ASSERT.
  rewrite Hign. cbn [negb].
  destruct (IsActiveAssert _ level); [|reflexivity].
  destruct (Effectful.condition cs e (record (EvIsActiveAssert level) w))
    as [[[|]|exc| |] w1]; cbn [fst snd negb abrupt] in *; try reflexivity.
  rewrite Hsame.
  destruct (Effectful.try_body HA level cs f None w1) as [[|ex| |] w']; cbn;
    try reflexivity.
  destruct (catches_SStartDebuggingException ex) eqn:Hsd; [|reflexivity].
  apply catches_SStartDebuggingException_class in Hsd.
  by destruct (Hnobreak ex eq_refl).
Qed.

Lemma try_block_world r : snd (try_block r) = snd r.
Proof.
  destruct r as [[|ex| |] w']; cbn; try reflexivity.
  by destruct (catches_CAssertException ex).
Qed.

(** A component of the world that the event log does not hold is left by a
    check as its operands and [HandleAssert] leave it. *)
Lemma call_site_frame_on {A} (proj : World -> A) level cs
    (e : Operand bool) (f : Operand string) w :
  (forall ev w0, proj (record ev w0) = proj w0) ->
  (forall w0, proj (snd (e w0)) = proj w0) ->
  (forall w0, proj (snd (f w0)) = proj w0) ->
  (forall l m c r w0, proj (snd (HA l m c r w0)) = proj w0) ->
  proj (snd (Effectful.IMPL_DBGH_ASSERT HA level cs e f w)) = proj w
  /\ proj (snd (Effectful.IMPL_DBGH_ASSERT_DEBUG HA level cs e f w)) = proj w.
Proof.
  intros Hrec He Hf Hkeep.
  assert (Hcond : forall w0, proj (snd (Effectful.condition cs e w0)) = proj w0).
  { intros w0. unfold Effectful.condition. specialize (He w0).
    destruct (e w0) as [rb w1]. cbn in *. by rewrite Hrec. }
  assert (Hbody : forall ref w0,
             proj (snd (Effectful.try_body HA level cs f ref w0)) = proj w0).
  { intros ref w0. unfold Effectful.try_body. specialize (Hf w0).
    destruct (f w0) as [[msg|exf| |] w1]; cbn in *; rewrite ?Hkeep, ?Hrec; done. }
  assert (Hdebug : forall r, proj (snd (try_block_DEBUG cs r)) = proj (snd r)).
  { intros [[|ex| |] w']; cbn; try reflexivity.
    destruct (catches_SStartDebuggingException ex); cbn; [apply Hrec|].
    by destruct (catches_CAssertException ex). }
  assert (Hplain : proj (snd (Effectful.IMPL_DBGH_ASSERT HA level cs e f w)) = proj w).
  { unfold Effectful.IMPL_DBGH_ASSERT.
    destruct (IsActiveAssert _ level); [|apply Hrec].
    specialize (Hcond (record (EvIsActiveAssert level) w)). rewrite Hrec in Hcond.
    destruct (Effectful.condition cs e _) as [[[|]|exc| |] w1];
      cbn [fst snd negb abrupt] in *; try exact Hcond.
    by rewrite try_block_world, Hbody. }
  split; [exact Hplain|].
  unfold Effectful.IMPL_DBGH_ASSERT_DEBUG.
  destruct (ignore_of w (site_id cs)); cbn [negb]; [reflexivity|].
  destruct (IsActiveAssert _ level); [|apply Hrec].
  specialize (Hcond (record (EvIsActiveAssert level) w)). rewrite Hrec in Hcond.
  destruct (Effectful.condition cs e _) as [[[|]|exc| |] w1];
    cbn [fst snd negb abrupt] in *; try exact Hcond.
  by rewrite Hdebug, Hbody.
Qed.

(** X7. The call site itself changes neither the configuration, nor any
    latch, nor the streams: each of the three is after a check of either
    macro what it was before, provided the guarded expression, the format
    call and [HandleAssert] leave it alone. *)
Theorem X7_call_site_frame (level : EAssertLevel) (cs : CallSite)
    (e : Operand bool) (f : Operand string) (w : World) :
  ((forall w0, w_config (snd (e w0)) = w_config w0) ->
   (forall w0, w_config (snd (f w0)) = w_config w0) ->
   (forall l m c r w0, w_config (snd (HA l m c r w0)) = w_config w0) ->
   w_config (snd (Effectful.IMPL_DBGH_ASSERT HA level cs e f w)) = w_config w
   /\ w_config (snd (Effectful.IMPL_DBGH_ASSERT_DEBUG HA level cs e f w)) = w_config w)
  /\ ((forall w0, w_ignore (snd (e w0)) = w_ignore w0) ->
      (forall w0, w_ignore (snd (f w0)) = w_ignore w0) ->
      (forall l m c r w0, w_ignore (snd (HA l m c r w0)) = w_ignore w0) ->
      w_ignore (snd (Effectful.IMPL_DBGH_ASSERT HA level cs e f w)) = w_ignore w
      /\ w_ignore (snd (Effectful.IMPL_DBGH_ASSERT_DEBUG HA level cs e f w)) = w_ignore w)
  /\ ((forall w0, w_io (snd (e w0)) = w_io w0) ->
      (forall w0, w_io (snd (f w0)) = w_io w0) ->
      (forall l m c r w0, w_io (snd (HA l m c r w0)) = w_io w0) ->
      w_io (snd (Effectful.IMPL_DBGH_ASSERT HA level cs e f w)) = w_io w
      /\ w_io (snd (Effectful.IMPL_DBGH_ASSERT_DEBUG HA level cs e f w)) = w_io w).
Proof.
  split; [|split]; intros He Hf Hkeep; by apply call_site_frame_on.
Qed.

(** X8. Order of evaluation in a check whose level is active and whose
    guarded expression yields false.  The format call is evaluated in the
    world the expression left.  If it yields a message, [HandleAssert] is
    entered with that message in the world the format call left, inside the
    [try] block.  If it throws, [HandleAssert] is not entered and the
    exception meets the catch clauses of the macro: one of class
    [CAssertException] or derived leaves the check as a plain copy, and in
    the Debug macro an [SStartDebuggingException] executes the breakpoint
    and the check falls through. *)
Theorem X8_handler_entered_after_expression_and_format (level : EAssertLevel)
    (cs : CallSite) (e : Operand bool) (f : Operand string) (w : World) :
  let C := Effectful.condition cs e (record (EvIsActiveAssert level) w) in
  let F := f (snd C) in
  let w2 := record (EvFormat (site_id cs)) (snd F) in
  IsActiveAssert (w_config w) level = true ->
  fst C = Yields false ->
  (forall msg,
     fst F = Yields msg ->
     Effectful.IMPL_DBGH_ASSERT HA level cs e f w =
       try_block (HA level msg cs None
                    (record (EvHandleAssert level (site_id cs) msg) w2))
     /\ (ignore_of w (site_id cs) = false ->
         Effectful.IMPL_DBGH_ASSERT_DEBUG HA level cs e f w =
           try_block_DEBUG cs
             (HA level msg cs (Some (site_id cs))
                (record (EvHandleAssert level (site_id cs) msg) w2))))
  /\ (forall ex,
        fst F = Raises ex ->
        Effectful.IMPL_DBGH_ASSERT HA level cs e f w =
          (Throws (if catches_CAssertException ex then throw_e ex else ex), w2)
        /\ (ignore_of w (site_id cs) = false ->
            Effectful.IMPL_DBGH_ASSERT_DEBUG HA level cs e f w =
              if catches_SStartDebuggingException ex
              then (Normal, record (EvStartDebugging (site_id cs)) w2)
              else (Throws (if catches_CAssertException ex then throw_e ex else ex),
                    w2))).
Proof.
  intros C F w2 Hact Hcond. subst w2 F C.
  unfold Effectful.IMPL_DBGH_ASSERT_DEBUG, Effectful.IMPL_DBGH_ASSERT,
    Effectful.try_body.
  rewrite record_config, Hact.
  destruct (Effectful.condition cs e (record (EvIsActiveAssert level) w)) as [rb w1].
  cbn [fst snd] in *. subst rb. cbn [negb].
  destruct (f w1) as [rm wf]. cbn [fst snd].
  split.
  - intros msg ->. split; [reflexivity|]. intros ->. reflexivity.
  - intros ex ->. cbn [abrupt]. split.
    + cbn. by destruct (catches_CAssertException ex).
    + intros ->. cbn.
      destruct (catches_SStartDebuggingException ex); [reflexivity|].
      by destruct (catches_CAssertException ex).
Qed.

End EffectfulLaws.

(** ** The further laws at concrete inputs *)

Section MacroLawsExamples.

Import CAssertHandlerModel ExampleHandlers.

(** X3 at a handler that throws [SStartDebuggingException] under
    [ASSERT_WARNING] of a release build: it reaches the caller. *)
Lemma X3_foreign_exception_passes_unchanged_witness :
  let w := Examples.release_world in
  let wh := at_handler Warning Examples.site_A Examples.failing Examples.bad_value_5 w in
  (IsActiveAssert (w_config w) Warning = true
   /\ fst (Examples.failing (w_env w)) = false
   /\ catches_CAssertException start_debugging = false)
  /\ IMPL_DBGH_ASSERT (ending (Throws start_debugging)) Warning Examples.site_A
       Examples.failing Examples.bad_value_5 w = (Throws start_debugging, wh).
Proof.
  intros w wh. split; [repeat split; reflexivity|].
  apply (proj1 (X3_foreign_exception_passes_unchanged (ending (Throws start_debugging))
                  Warning Examples.site_A Examples.failing Examples.bad_value_5 w
                  start_debugging wh eq_refl eq_refl eq_refl)).
  reflexivity.
Defined.

(** X4 at a handler that throws a [CDiskError] under [ASSERT_ERROR]. *)
Lemma X4_assertion_exception_rethrown_as_copy_witness :
  let w := Examples.release_world in
  let wh := at_handler Error Examples.site_A Examples.failing Examples.bad_value_5 w in
  (IsActiveAssert (w_config w) Error = true
   /\ fst (Examples.failing (w_env w)) = false
   /\ catches_CAssertException disk_error = true)
  /\ IMPL_DBGH_ASSERT (ending (Throws disk_error)) Error Examples.site_A
       Examples.failing Examples.bad_value_5 w
     = (Throws (mkException CAssertException "disk full" []), wh).
Proof.
  intros w wh. split; [repeat split; reflexivity|].
  apply (proj1 (X4_assertion_exception_rethrown_as_copy (ending (Throws disk_error))
                  Error Examples.site_A Examples.failing Examples.bad_value_5 w
                  disk_error wh eq_refl eq_refl eq_refl)).
  reflexivity.
Defined.

(** X6 at a debug build in its default configuration: Fatal is disabled,
    Debug enabled. *)
Lemma X6_DEBUG_switch_changes_the_gate_witness :
  let w := Examples.debug_world [] in
  (ignore_of w (site_id Examples.site_A) = false
   /\ fst (Examples.failing (w_env w)) = false
   /\ IsActiveAssert (w_config w) Fatal = false
   /\ IsActiveAssert (w_config w) Debug = true)
  /\ ASSERT_FATAL (ending Terminated) false Examples.site_A Examples.failing
       Examples.bad_value_5 w = (Normal, record (EvIsActiveAssert Fatal) w)
  /\ fst (ASSERT_FATAL (ending Terminated) true Examples.site_A Examples.failing
            Examples.bad_value_5 w) = Terminated.
Proof.
  intros w. split; [repeat split; reflexivity|].
  destruct (proj1 (X6_DEBUG_switch_changes_the_gate (ending Terminated) Examples.site_A
                     Examples.failing Examples.bad_value_5 w eq_refl eq_refl)
              eq_refl eq_refl) as [Hrelease Hdebug].
  split; [exact Hrelease|]. rewrite Hdebug. reflexivity.
Defined.

(** X5 at the modelled handler and level Warning, which has no use for the
    latch reference. *)
Lemma X5_DEBUG_macro_agrees_with_plain_macro_witness :
  let w := Examples.release_world in
  let e := pure_expression Examples.failing in
  let f := pure_format Examples.bad_value_5 in
  let C := Effectful.condition Examples.site_A e (record (EvIsActiveAssert Warning) w) in
  (ignore_of w (site_id Examples.site_A) = false
   /\ Effectful.try_body HandleAssert Warning Examples.site_A f
        (Some (site_id Examples.site_A)) (snd C)
      = Effectful.try_body HandleAssert Warning Examples.site_A f None (snd C))
  /\ Effectful.IMPL_DBGH_ASSERT_DEBUG HandleAssert Warning Examples.site_A e f w
     = Effectful.IMPL_DBGH_ASSERT HandleAssert Warning Examples.site_A e f w.
Proof.
  intros w e f C. split; [split; reflexivity|].
  apply (X5_DEBUG_macro_agrees_with_plain_macro HandleAssert Warning Examples.site_A
           e f w eq_refl eq_refl).
  intros ex Hex. vm_compute in Hex. discriminate Hex.
Defined.

(** X7 at a handler that touches nothing, with a guarded expression that
    writes a program variable. *)
Lemma X7_call_site_frame_witness :
  let w := Examples.release_world in
  let e := pure_expression Examples.counting in
  let f := pure_format Examples.bad_value_5 in
  ((forall w0, w_io (snd (e w0)) = w_io w0)
   /\ (forall w0, w_io (snd (f w0)) = w_io w0)
   /\ (forall l m c r w0, w_io (snd (ending Normal l m c r w0)) = w_io w0))
  /\ w_io (snd (Effectful.IMPL_DBGH_ASSERT (ending Normal) Warning Examples.site_A
                  e f w)) = w_io w.
Proof.
  intros w e f.
  assert (He : forall w0, w_io (snd (e w0)) = w_io w0) by reflexivity.
  assert (Hf : forall w0, w_io (snd (f w0)) = w_io w0) by reflexivity.
  assert (Hh : forall l m c r w0, w_io (snd (ending Normal l m c r w0)) = w_io w0)
    by reflexivity.
  split; [by repeat split|].
  apply (proj1 (proj2 (proj2 (X7_call_site_frame (ending Normal) Warning
                                 Examples.site_A e f w)) He Hf Hh)).
Defined.

(** X8 at a Debug check whose format argument throws
    [SStartDebuggingException]: the breakpoint is executed and the check
    falls through, and the handler, which would terminate, is not entered;
    under the plain macro the same exception reaches the caller. *)
Lemma X8_handler_entered_after_expression_and_format_witness :
  let w := Examples.debug_world [] in
  let e := pure_expression Examples.failing in
  let f : Operand string := raising start_debugging in
  (IsActiveAssert (w_config w) Debug = true
   /\ fst (Effectful.condition Examples.site_A e (record (EvIsActiveAssert Debug) w))
      = Yields false
   /\ ignore_of w (site_id Examples.site_A) = false)
  /\ fst (Effectful.IMPL_DBGH_ASSERT_DEBUG (ending Terminated) Debug Examples.site_A
            e f w) = Normal
  /\ fst (Effectful.IMPL_DBGH_ASSERT (ending Terminated) Debug Examples.site_A
            e f w) = Throws start_debugging.
Proof.
  intros w e f. split; [repeat split; reflexivity|].
  destruct (proj2 (X8_handler_entered_after_expression_and_format (ending Terminated)
                     Debug Examples.site_A e f w eq_refl eq_refl)
              start_debugging eq_refl) as [Hplain Hdebug].
  split.
  - rewrite (Hdebug eq_refl). reflexivity.
  - rewrite Hplain. reflexivity.
Defined.

End MacroLawsExamples.
